(** * FastGPUMonitor: a shallow embedding of
      jtop_fast_gpu_utilization_only/gpu_monitor.py

    The class [FastGPUMonitor] owns a sample buffer, a stop flag, a start
    instant and a thread handle.  The methods are embedded as state-passing
    functions in a small state-and-exception monad; the body of the
    background thread ([_monitor]) is embedded as a small-step machine whose
    program counter follows the statements of the source, so that calls of
    the owner of the object can be interleaved with the thread at statement
    granularity.

    Idealisations, all on the side of the Python runtime rather than of the
    program:
    - [time.time()] and the elapsed timestamps are rationals ([Q]) instead of
      binary floating point numbers;
    - [statistics.mean] is the exact rational mean and [statistics.stdev] the
      real square root of the exact sample variance;
    - file contents are ASCII strings, and [int()] has no limit on the number
      of digits. *)

From Stdlib Require Import String Ascii Bool Arith ZArith QArith Lia Lra Lqa List Sorted.
From Stdlib Require Import Reals Qreals.
From Stdlib Require Qcanon Qpower.
Import ListNotations.

Local Open Scope Z_scope.

(** ** Exceptions and results *)

Inductive exn : Type :=
  | ValueError (msg : string)
  | RuntimeError (msg : string)
  | FileNotFoundError
  | PermissionError
  | OSError
  | UnboundLocalError (var : string)
  | TypeError
  | StatisticsError
  | ZeroDivisionError.

(** The three failures of the public interface, under the names the
    specification gives them. *)
Definition InvalidConfiguration : exn := ValueError "Interval must be positive".
Definition AlreadyRunning : exn := RuntimeError "Monitoring is already running".
Definition NotRunning : exn := RuntimeError "Monitoring is not running".

Inductive Result (A : Type) : Type :=
  | Ok (a : A)
  | Raise (e : exn).
Arguments Ok {A} a.
Arguments Raise {A} e.

(** ** The outside world

    Every interaction with the operating system consumes one tick.  At tick
    [k] the wall clock shows [time_at k], opening and reading the load file
    gives [file_at k], and [os.path.exists] on it gives [exists_at k]. *)

Inductive read_result : Type :=
  | Content (s : string)
  | Fails (e : exn).

Record World : Type := mkWorld {
  time_at : nat -> Q;
  file_at : nat -> read_result;
  exists_at : nat -> bool
}.

(** ** [str.strip()] and [int()] on ASCII text *)

Definition is_space (a : ascii) : bool :=
  let n := nat_of_ascii a in
  ((9 <=? n) && (n <=? 13) || (28 <=? n) && (n <=? 32))%nat.

Fixpoint lstrip (s : list ascii) : list ascii :=
  match s with
  | a :: r => if is_space a then lstrip r else s
  | [] => []
  end.

Definition strip_chars (s : list ascii) : list ascii :=
  rev (lstrip (rev (lstrip s))).

Definition strip (s : string) : string :=
  string_of_list_ascii (strip_chars (list_ascii_of_string s)).

Definition digit_of (a : ascii) : option Z :=
  let n := nat_of_ascii a in
  if ((48 <=? n) && (n <=? 57))%nat then Some (Z.of_nat n - 48) else None.

(** Decimal digits, where single underscores may separate digits.
    [after_digit] tells whether the previous character was a digit, the only
    place where an underscore or the end of the text is accepted. *)
Fixpoint digits_from (acc : Z) (after_digit : bool) (s : list ascii) : option Z :=
  match s with
  | [] => if after_digit then Some acc else None
  | a :: r =>
      match digit_of a with
      | Some d => digits_from (10 * acc + d) true r
      | None =>
          if (Ascii.eqb a "_" && after_digit)%bool
          then digits_from_underscore acc r
          else None
      end
  end
with digits_from_underscore (acc : Z) (s : list ascii) : option Z :=
  match s with
  | [] => None
  | a :: r =>
      match digit_of a with
      | Some d => digits_from (10 * acc + d) true r
      | None => None
      end
  end.

(** [int(s)]: surrounding whitespace is ignored, one sign is accepted. *)
Definition int (s : string) : Result Z :=
  let body := strip_chars (list_ascii_of_string s) in
  let parsed :=
    match body with
    | a :: r =>
        if Ascii.eqb a "-" then option_map Z.opp (digits_from 0 false r)
        else if Ascii.eqb a "+" then digits_from 0 false r
        else digits_from 0 false body
    | [] => None
    end in
  match parsed with
  | Some z => Ok z
  | None => Raise (ValueError "invalid literal for int() with base 10")
  end.

(** ** [max], [statistics.mean] and [statistics.stdev] on lists of integers

    The library computes with exact fractions in lowest terms; so does the
    model ([Qred]).  The conversion of the results to floating point is left
    out: the mean is the exact quotient and the standard deviation the real
    square root of the exact sample variance. *)

Definition sum_Z (l : list Z) : Z := fold_right Z.add 0 l.

Definition max_of (l : list Z) : Result Z :=
  match l with
  | [] => Raise (ValueError "max() arg is an empty sequence")
  | x :: r => Ok (fold_left Z.max r x)
  end.

Definition statistics_mean (data : list Z) : Result Q :=
  match data with
  | [] => Raise StatisticsError
  | _ => Ok (Qred (inject_Z (sum_Z data) / inject_Z (Z.of_nat (length data))))
  end.

(** Sum of the squared deviations from [c]. *)
Definition sum_sq_dev (data : list Z) (c : Q) : Q :=
  fold_right (fun x acc => (inject_Z x - c) * (inject_Z x - c) + acc)%Q 0%Q data.

Definition statistics_variance (data : list Z) : Result Q :=
  if (length data <? 2)%nat then Raise StatisticsError
  else
    match statistics_mean data with
    | Ok c => Ok (Qred (sum_sq_dev data c / inject_Z (Z.of_nat (length data) - 1)))
    | Raise e => Raise e
    end.

Definition statistics_stdev (data : list Z) : Result R :=
  match statistics_variance data with
  | Ok v => Ok (sqrt (Q2R v))
  | Raise e => Raise e
  end.

(** ** Logging *)

Inductive Level : Type := DEBUG | WARNING | ERROR.

Inductive Message : Type :=
  | GpuLoadFileNotFound (path : string)
  | ErrorInMonitoringThread (e : exn)
  | StartedMonitoring (hz : Q)
  | StoppedMonitoring
  | ErrorReadingCurrent (e : exn).

Definition LogRecord : Type := Level * Message.

(** ** The thread running [_monitor]

    The program counter names the statement of [_monitor] that runs next.
    [timestamp] and [gpu_util] are the local variables of the frame; [None]
    is an unbound local. *)

Inductive pc : Type :=
  | AtStart          (* self.start_time = time.time() *)
  | AtCheck          (* while not self.stop_event.is_set(): *)
  | AtRead           (* with open(...) as f: gpu_util = int(f.read().strip()) *)
  | AtStamp          (* timestamp = time.time() - self.start_time *)
  | AtAppend         (* self.utilization_data.append((timestamp, gpu_util)) *)
  | AtSleep          (* time.sleep(self.interval) *)
  | AtHandlerLog (e : exn)   (* logger.error(...) *)
  | AtHandlerAppend.         (* self.utilization_data.append((timestamp, 0)) *)

Record Frame : Type := mkFrame {
  at_pc : pc;
  timestamp : option Q;
  gpu_util : option Z
}.

Inductive Thread : Type :=
  | Alive (f : Frame)
  | Returned
  | Died (e : exn).

Definition is_alive (t : Thread) : bool :=
  match t with
  | Alive _ => true
  | _ => false
  end.

(** ** The object *)

Definition Sample : Type := (Q * Z)%type.

Record FastGPUMonitor : Type := mkFastGPUMonitor {
  interval : Q;
  utilization_data : list Sample;
  stop_event : bool;
  start_time : option Q;
  gpu_load_path : string;
  thread : option Thread
}.

(** The state of the process: the object, the records handed to the module's
    logger, and the position in the world. *)
Record State : Type := mkState {
  self : FastGPUMonitor;
  logged : list LogRecord;
  tick : nat
}.

(** ** A state and exception monad *)

Definition M (A : Type) : Type := State -> Result A * State.

Definition ret {A} (a : A) : M A := fun st => (Ok a, st).
Definition raise {A} (e : exn) : M A := fun st => (Raise e, st).
Definition bind {A B} (m : M A) (k : A -> M B) : M B :=
  fun st =>
    match m st with
    | (Ok a, st') => k a st'
    | (Raise e, st') => (Raise e, st')
    end.
(** [try: m except Exception as e: h e] *)
Definition try_except {A} (m : M A) (h : exn -> M A) : M A :=
  fun st =>
    match m st with
    | (Ok a, st') => (Ok a, st')
    | (Raise e, st') => h e st'
    end.

Declare Scope py_scope.
Delimit Scope py_scope with py.
Notation "x <- m ;; k" := (bind m (fun x => k))
  (at level 61, m at next level, right associativity) : py_scope.
Notation "m ;; k" := (bind m (fun _ => k))
  (at level 61, right associativity) : py_scope.
Local Open Scope py_scope.

Definition get_self : M FastGPUMonitor := fun st => (Ok (self st), st).
Definition put_self (o : FastGPUMonitor) : M unit :=
  fun st => (Ok tt, mkState o (logged st) (tick st)).
Definition logger (l : Level) (m : Message) : M unit :=
  fun st => (Ok tt, mkState (self st) (logged st ++ [(l, m)]) (tick st)).
Definition next_tick : M nat :=
  fun st => (Ok (tick st), mkState (self st) (logged st) (S (tick st))).

Section Monitor.

Variable w : World.

(** [time.time()] *)
Definition time_time : M Q :=
  k <- next_tick ;; ret (time_at w k).

(** [with open(path, 'r') as f: f.read()]; the world holds one file, the
    load file of the GPU. *)
Definition open_read (path : string) : M string :=
  k <- next_tick ;;
  match file_at w k with
  | Content s => ret s
  | Fails e => raise e
  end.

(** [os.path.exists(path)] *)
Definition os_path_exists (path : string) : M bool :=
  k <- next_tick ;; ret (exists_at w k).

Definition lift {A} (r : Result A) : M A := fun st => (r, st).

(** *** Attribute assignment *)

Definition set_utilization_data (d : list Sample) : M unit :=
  o <- get_self ;;
  put_self (mkFastGPUMonitor (interval o) d (stop_event o) (start_time o)
              (gpu_load_path o) (thread o)).
Definition set_stop_event (b : bool) : M unit :=
  o <- get_self ;;
  put_self (mkFastGPUMonitor (interval o) (utilization_data o) b (start_time o)
              (gpu_load_path o) (thread o)).
Definition set_start_time (t : option Q) : M unit :=
  o <- get_self ;;
  put_self (mkFastGPUMonitor (interval o) (utilization_data o) (stop_event o) t
              (gpu_load_path o) (thread o)).
Definition set_thread (t : option Thread) : M unit :=
  o <- get_self ;;
  put_self (mkFastGPUMonitor (interval o) (utilization_data o) (stop_event o)
              (start_time o) (gpu_load_path o) t).

(** [self.utilization_data.append(x)] *)
Definition append (x : Sample) : M unit :=
  o <- get_self ;; set_utilization_data (utilization_data o ++ [x]).

(** *** [__init__] *)

Definition default_gpu_load_path : string :=
  "/sys/class/devfreq/17000000.gpu/device/load".

(** The constructor runs in a process that has logged [logged0] and is at
    tick [tick0]; it gives the state of the process with the new object, or
    the exception it raised. *)
Definition __init__ (interval0 : Q) (logged0 : list LogRecord) (tick0 : nat)
  : Result State :=
  if Qle_bool interval0 0 then Raise InvalidConfiguration
  else
    let o := mkFastGPUMonitor interval0 [] false None default_gpu_load_path None in
    let body : M unit :=
      found <- os_path_exists (gpu_load_path o) ;;
      if negb found
      then logger WARNING (GpuLoadFileNotFound (gpu_load_path o))
      else ret tt in
    match body (mkState o logged0 tick0) with
    | (Ok _, st) => Ok st
    | (Raise e, _) => Raise e
    end.

(** *** [_monitor], one statement at a time *)

Definition goto (f : Frame) (p : pc) : Thread :=
  Alive (mkFrame p (timestamp f) (gpu_util f)).

(** The statement at [at_pc f].  An exception raised inside the [try] region
    transfers control to the [except] clause; one raised inside the [except]
    clause leaves [_monitor] and ends the thread. *)
Definition _monitor (f : Frame) : M Thread :=
  match at_pc f with
  | AtStart =>
      now <- time_time ;;
      set_start_time (Some now) ;;
      ret (goto f AtCheck)
  | AtCheck =>
      o <- get_self ;;
      if stop_event o then ret Returned else ret (goto f AtRead)
  | AtRead =>
      try_except
        (o <- get_self ;;
         s <- open_read (gpu_load_path o) ;;
         v <- lift (int (strip s)) ;;
         ret (Alive (mkFrame AtStamp (timestamp f) (Some v))))
        (fun e => ret (goto f (AtHandlerLog e)))
  | AtStamp =>
      now <- time_time ;;
      o <- get_self ;;
      match start_time o with
      | Some t0 => ret (Alive (mkFrame AtAppend (Some (now - t0)%Q) (gpu_util f)))
      | None => ret (goto f (AtHandlerLog TypeError))
      end
  | AtAppend =>
      match timestamp f, gpu_util f with
      | Some t, Some v => append (t, v) ;; ret (goto f AtSleep)
      | None, _ => ret (goto f (AtHandlerLog (UnboundLocalError "timestamp")))
      | _, None => ret (goto f (AtHandlerLog (UnboundLocalError "gpu_util")))
      end
  | AtSleep =>
      o <- get_self ;;
      if Qle_bool 0 (interval o)
      then next_tick ;; ret (goto f AtCheck)
      else ret (goto f (AtHandlerLog (ValueError "sleep length must be non-negative")))
  | AtHandlerLog e =>
      logger ERROR (ErrorInMonitoringThread e) ;;
      ret (goto f AtHandlerAppend)
  | AtHandlerAppend =>
      match timestamp f with
      | Some t => append (t, 0) ;; ret Returned
      | None => ret (Died (UnboundLocalError "timestamp"))
      end
  end.

(** The scheduler gives the thread of the object one statement. *)
Definition thread_step (st : State) : State :=
  match thread (self st) with
  | Some (Alive f) =>
      match _monitor f st with
      | (Ok t, st') => snd (set_thread (Some t) st')
      | (Raise e, st') => snd (set_thread (Some (Died e)) st')
      end
  | _ => st
  end.

Fixpoint thread_steps (n : nat) (st : State) : State :=
  match n with
  | O => st
  | S n' => thread_steps n' (thread_step st)
  end.

(** [self.thread is not None and self.thread.is_alive()] *)
Definition thread_is_alive (o : FastGPUMonitor) : bool :=
  match thread o with
  | Some t => is_alive t
  | None => false
  end.

(** *** [start]

    Creating the [Thread] object and starting it are one step here: the new
    thread is alive and has not yet executed a statement of [_monitor]. *)

Definition start : M unit :=
  o <- get_self ;;
  if thread_is_alive o then raise AlreadyRunning
  else
    set_utilization_data [] ;;
    set_stop_event false ;;
    set_thread (Some (Alive (mkFrame AtStart None None))) ;;
    o <- get_self ;;
    if Qeq_bool (interval o) 0 then raise ZeroDivisionError
    else logger DEBUG (StartedMonitoring (1 / interval o)%Q).

(** *** [stop]

    [thread.join()] blocks while the thread is alive.  [join fuel] lets the
    thread run at most [fuel] statements; [None] means the caller is still
    blocked when the fuel is spent. *)
Fixpoint join (fuel : nat) (st : State) : option State :=
  if thread_is_alive (self st) then
    match fuel with
    | O => None
    | S fuel' => join fuel' (thread_step st)
    end
  else Some st.

Definition stop (fuel : nat) (st : State) : option (Result unit * State) :=
  if negb (thread_is_alive (self st)) then Some (raise NotRunning st)
  else
    match join fuel (snd (set_stop_event true st)) with
    | Some st' => Some (logger DEBUG StoppedMonitoring st')
    | None => None
    end.

(** *** [get_current_utilization] *)

Definition get_current_utilization : M Z :=
  try_except
    (o <- get_self ;;
     s <- open_read (gpu_load_path o) ;;
     lift (int (strip s)))
    (fun e => logger ERROR (ErrorReadingCurrent e) ;; ret 0).

(** *** [get_stats] *)

Definition get_stats : M (Q * Z * R * nat) :=
  o <- get_self ;;
  match utilization_data o with
  | [] => ret (0%Q, 0, 0%R, O)
  | _ =>
      let util_values := map snd (utilization_data o) in
      avg_util <- lift (statistics_mean util_values) ;;
      max_util <- lift (max_of util_values) ;;
      std_dev <- (if (1 <? length util_values)%nat
                  then lift (statistics_stdev util_values)
                  else ret 0%R) ;;
      let num_samples := length util_values in
      ret (avg_util, max_util, std_dev, num_samples)
  end.

(** *** [get_data] and [is_running] *)

Definition get_data : M (list Sample) :=
  o <- get_self ;; ret (utilization_data o).

Definition is_running : M bool :=
  o <- get_self ;; ret (thread_is_alive o).

End Monitor.

(** * Vocabulary of the properties *)

(** The object as [__init__] leaves it. *)
Definition fresh (iv : Q) : FastGPUMonitor :=
  mkFastGPUMonitor iv [] false None default_gpu_load_path None.

(** [holding st d] is [st] with the buffer of the object holding [d]; every
    state is of this form ([holding_self]). *)
Definition holding (st : State) (d : list Sample) : State :=
  mkState (mkFastGPUMonitor (interval (self st)) d (stop_event (self st))
             (start_time (self st)) (gpu_load_path (self st)) (thread (self st)))
          (logged st) (tick st).

(** What one read of the load file at tick [k] yields: the integer, or the
    exception of [open], [read] or [int]. *)
Definition read_outcome (w : World) (k : nat) : Result Z :=
  match file_at w k with
  | Content s => int (strip s)
  | Fails e => Raise e
  end.

(** The states a process can be in: the object is constructed, its owner
    calls its methods, and the scheduler lets its thread run, one statement
    at a time, between any two calls. *)
Inductive reachable (w : World) : State -> Prop :=
  | reach_init iv lg k st :
      __init__ w iv lg k = Ok st -> reachable w st
  | reach_thread st :
      reachable w st -> reachable w (thread_step w st)
  | reach_start st :
      reachable w st -> reachable w (snd (start st))
  | reach_stop st fuel r st' :
      reachable w st -> stop w fuel st = Some (r, st') -> reachable w st'
  | reach_get_current_utilization st :
      reachable w st -> reachable w (snd (get_current_utilization w st))
  | reach_get_stats st :
      reachable w st -> reachable w (snd (get_stats st))
  | reach_get_data st :
      reachable w st -> reachable w (snd (get_data st))
  | reach_is_running st :
      reachable w st -> reachable w (snd (is_running st)).

(** The elapsed time of the last sample of the buffer. *)
Definition last_stamp (d : list Sample) : option Q :=
  match rev d with
  | [] => None
  | (t, _) :: _ => Some t
  end.

(** The local variable [timestamp] of a running thread is the elapsed time of
    the last sample of the buffer, and unbound while the buffer is empty;
    except at the [append] of the loop, where it is the time of the sample
    about to be added. *)
Definition synced (o : FastGPUMonitor) : Prop :=
  match thread o with
  | Some (Alive f) =>
      match at_pc f with
      | AtStart => utilization_data o = [] /\ timestamp f = None
      | AtStamp => last_stamp (utilization_data o) = timestamp f /\ gpu_util f <> None
      | AtAppend => timestamp f <> None /\ gpu_util f <> None
      | _ => last_stamp (utilization_data o) = timestamp f
      end
  | _ => True
  end.

(** The clock of the world never runs backwards. *)
Definition monotone_clock (w : World) : Prop :=
  forall i j, (i <= j)%nat -> (time_at w i <= time_at w j)%Q.


(** The thread has executed the first statement of [_monitor]. *)
Definition past_start (o : FastGPUMonitor) : Prop :=
  match thread o with
  | Some (Alive f) => at_pc f <> AtStart
  | _ => True
  end.

(** With the stop flag set, a bound on the statements the thread still
    executes. *)
Definition remaining (o : FastGPUMonitor) : nat :=
  match thread o with
  | Some (Alive f) =>
      match at_pc f with
      | AtRead => 6
      | AtStamp => 5
      | AtAppend => 4
      | AtSleep => 3
      | AtStart => 2
      | AtHandlerLog _ => 2
      | AtCheck => 1
      | AtHandlerAppend => 1
      end
  | _ => 0
  end.

(** With the stop flag set, a bound on the samples the thread still adds:
    the sample of the iteration it is in and, when the rest of the iteration
    raises, the sample of the error handler. *)
Definition appends_left (o : FastGPUMonitor) : nat :=
  match thread o with
  | Some (Alive f) =>
      match at_pc f with
      | AtStart | AtCheck => 0
      | AtRead | AtStamp | AtAppend => 2
      | AtSleep | AtHandlerLog _ | AtHandlerAppend => 1
      end
  | _ => 0
  end.

(** No sample has a negative elapsed time, the local [timestamp] of the
    thread is not negative either, and the start instant is not later than
    the clock. *)
Definition nonneg_times (w : World) (st : State) : Prop :=
  Forall (fun s : Sample => (0 <= fst s)%Q) (utilization_data (self st))
  /\ match thread (self st) with
     | Some (Alive f) =>
         (forall ts, timestamp f = Some ts -> (0 <= ts)%Q)
         /\ match at_pc f with
            | AtStart => True
            | _ => exists t0, start_time (self st) = Some t0
                     /\ (t0 <= time_at w (tick st))%Q
            end
     | _ => True
     end.

(** Every value of the buffer, and the value the thread has read and not yet
    recorded, satisfies [P]. *)
Definition values_in (P : Z -> Prop) (o : FastGPUMonitor) : Prop :=
  Forall (fun s : Sample => P (snd s)) (utilization_data o)
  /\ match thread o with
     | Some (Alive f) => forall v, gpu_util f = Some v -> P v
     | _ => True
     end.

(** ** Concrete worlds and sessions *)

(** A world where the load file never exists and the clock shows the tick. *)
Definition absent_world : World :=
  mkWorld (fun k => inject_Z (Z.of_nat k)) (fun _ => Fails FileNotFoundError)
          (fun _ => false).

(** A world whose load file always holds the text [s]. *)
Definition file_world (s : string) : World :=
  mkWorld (fun k => inject_Z (Z.of_nat k)) (fun _ => Content s) (fun _ => true).

(** The load file holds "500" up to tick 4 and is gone from tick 5 on. *)
Definition flaky_world : World :=
  mkWorld (fun k => inject_Z (Z.of_nat k))
          (fun k => if (k <? 5)%nat then Content "500" else Fails FileNotFoundError)
          (fun _ => true).

(** A state around the fresh object with interval 1/100. *)
Definition idle_state : State := mkState (fresh (1 # 100)) [] 0.

(** The state [__init__] gives at tick 0 when the load file exists. *)
Definition constructed : State := mkState (fresh (1 # 100)) [] 1.

(** [constructed] right after a call of [start]. *)
Definition started : State := snd (start constructed).

(** The session of [flaky_world] when its second read is about to fail. *)
Definition before_failure : State := thread_steps flaky_world 7 started.

(** The session of [file_world "500"] after two samples. *)
Definition two_samples : State := thread_steps (file_world "500") 12 started.



(** The session of [file_world "500"] when the thread has read its second
    value and not yet recorded it. *)
Definition mid_iteration : State := thread_steps (file_world "500") 8 started.

(** [mid_iteration] after a call of [stop]. *)
Definition stopped_mid : State :=
  match stop (file_world "500") 6 mid_iteration with
  | Some (_, st) => st
  | None => mid_iteration
  end.

(** * Properties *)

Lemma holding_self (st : State) : holding st (utilization_data (self st)) = st.
Proof. destruct st as [[] ? ?]; reflexivity. Qed.

(** ** Statistics *)

Lemma fold_left_max_ge (r : list Z) (x : Z) :
  x <= fold_left Z.max r x /\ Forall (fun y => y <= fold_left Z.max r x) r.
Proof.
  revert x; induction r as [|y r IH]; intros x; simpl.
  - split; [lia | constructor].
  - destruct (IH (Z.max x y)) as [H1 H2]. split; [lia|].
    constructor; [lia | exact H2].
Qed.

Lemma fold_left_max_in (r : list Z) (x : Z) :
  fold_left Z.max r x = x \/ In (fold_left Z.max r x) r.
Proof.
  revert x; induction r as [|y r IH]; intros x; simpl.
  - now left.
  - destruct (IH (Z.max x y)) as [H | H].
    + rewrite H. destruct (Z.max_spec x y) as [[_ E] | [_ E]]; rewrite E; auto.
    + auto.
Qed.

Lemma max_of_cons (x : Z) (r : list Z) :
  exists m, max_of (x :: r) = Ok m /\ In m (x :: r) /\ Forall (fun y => y <= m) (x :: r).
Proof.
  exists (fold_left Z.max r x). split; [reflexivity|].
  destruct (fold_left_max_ge r x) as [H1 H2].
  split.
  - destruct (fold_left_max_in r x) as [H | H]; [left; auto | right; exact H].
  - constructor; assumption.
Qed.

Lemma statistics_mean_cons (x : Z) (r : list Z) :
  exists a, statistics_mean (x :: r) = Ok a /\
    (a * inject_Z (Z.of_nat (length (x :: r))) == inject_Z (sum_Z (x :: r)))%Q.
Proof.
  eexists; split; [reflexivity|].
  rewrite Qred_correct. field.
  unfold Qeq; simpl. lia.
Qed.

Lemma sum_sq_dev_nonneg (l : list Z) (c : Q) : (0 <= sum_sq_dev l c)%Q.
Proof.
  induction l as [|x l IH]; simpl.
  - apply Qle_refl.
  - assert (H : (0 <= (inject_Z x - c) * (inject_Z x - c))%Q).
    { apply (Qpower.Qsqr_nonneg (inject_Z x - c)). }
    lra.
Qed.

Lemma statistics_variance_two (x y : Z) (r : list Z) :
  exists c v,
    statistics_mean (x :: y :: r) = Ok c /\
    statistics_variance (x :: y :: r) = Ok v /\
    (v * inject_Z (Z.of_nat (length (x :: y :: r)) - 1) == sum_sq_dev (x :: y :: r) c)%Q /\
    (0 <= v)%Q.
Proof.
  destruct (statistics_mean_cons x (y :: r)) as [c [Hc _]].
  exists c. eexists. split; [exact Hc|].
  unfold statistics_variance. rewrite Hc.
  change (length (x :: y :: r) <? 2)%nat with false. cbv iota.
  split; [reflexivity|].
  set (n1 := inject_Z (Z.of_nat (length (x :: y :: r)) - 1)).
  assert (Hn : (0 < n1)%Q).
  { unfold n1. change 0%Q with (inject_Z 0). rewrite <- Zlt_Qlt.
    cbn [length]. lia. }
  rewrite Qred_correct. split.
  - field. intro E. rewrite E in Hn. apply (Qlt_irrefl 0), Hn.
  - apply Qle_shift_div_l; [exact Hn|].
    rewrite Qmult_0_l. apply sum_sq_dev_nonneg.
Qed.

Lemma statistics_stdev_two (x y : Z) (r : list Z) :
  exists c v,
    statistics_mean (x :: y :: r) = Ok c /\
    statistics_stdev (x :: y :: r) = Ok (sqrt (Q2R v)) /\
    (v * inject_Z (Z.of_nat (length (x :: y :: r)) - 1) == sum_sq_dev (x :: y :: r) c)%Q /\
    (0 <= sqrt (Q2R v))%R /\ (sqrt (Q2R v) * sqrt (Q2R v) = Q2R v)%R.
Proof.
  destruct (statistics_variance_two x y r) as [c [v [Hc [Hv [Hs Hpos]]]]].
  exists c, v. split; [exact Hc|].
  unfold statistics_stdev. rewrite Hv. split; [reflexivity|].
  split; [exact Hs|].
  split; [apply sqrt_pos|].
  apply sqrt_sqrt. replace 0%R with (Q2R 0) by (unfold Q2R; apply Rmult_0_l).
  apply Qle_Rle, Hpos.
Qed.

Lemma stdev_200_400_600 : statistics_stdev [200; 400; 600] = Ok 200%R.
Proof.
  unfold statistics_stdev.
  replace (statistics_variance [200; 400; 600]) with (Ok (40000 # 1))
    by (vm_compute; reflexivity).
  f_equal. unfold Q2R. cbn [Qnum Qden].
  replace (40000 * / 1)%R with (Rsqr 200) by (unfold Rsqr; Lra.lra).
  apply sqrt_Rsqr. Lra.lra.
Qed.

Lemma get_stats_cons (st : State) (x : Sample) (d : list Sample)
    (a : Q) (m : Z) (sd : R) :
  let vs := map snd (x :: d) in
  statistics_mean vs = Ok a ->
  max_of vs = Ok m ->
  (if (1 <? length vs)%nat then statistics_stdev vs else Ok 0%R) = Ok sd ->
  get_stats (holding st (x :: d)) = (Ok (a, m, sd, length vs), holding st (x :: d)).
Proof.
  intros vs Ha Hm Hsd.
  unfold get_stats, bind, get_self, lift.
  cbn [holding self utilization_data]. fold vs.
  rewrite Ha, Hm.
  destruct (1 <? length vs)%nat.
  - rewrite Hsd. reflexivity.
  - unfold ret. injection Hsd as <-. reflexivity.
Qed.

Lemma statistics_mean_single (v : Z) : statistics_mean [v] = Ok (inject_Z v).
Proof.
  unfold statistics_mean. f_equal.
  rewrite (Qred_complete _ (inject_Z v)).
  - apply Qcanon.Qred_identity. simpl. apply Z.gcd_1_r.
  - unfold sum_Z, Qeq; simpl. lia.
Qed.

(** C2: [get_stats] gives (0, 0, 0, 0) on the empty buffer and (v, v, 0, 1)
    on a single sample (t, v); on every non-empty buffer it gives the
    arithmetic mean of the values, their maximum, the sample standard
    deviation with denominator n-1 (0 when there are fewer than two values)
    and the number of samples; on the values 200, 400, 600 it gives mean 400,
    maximum 600, standard deviation 200 and count 3.  In every case the call
    returns normally and leaves the state as it was. *)
Theorem get_stats_spec (st : State) :
  get_stats (holding st []) = (Ok (0%Q, 0, 0%R, 0%nat), holding st [])
  /\ (forall (t : Q) (v : Z),
        get_stats (holding st [(t, v)])
        = (Ok (inject_Z v, v, 0%R, 1%nat), holding st [(t, v)]))
  /\ (forall (x : Sample) (d : list Sample),
        let vs := map snd (x :: d) in
        let n := inject_Z (Z.of_nat (length vs)) in
        exists (a : Q) (m : Z) (sd : R),
          get_stats (holding st (x :: d))
          = (Ok (a, m, sd, length vs), holding st (x :: d))
          /\ (a * n == inject_Z (sum_Z vs))%Q
          /\ In m vs /\ Forall (fun y => y <= m) vs
          /\ ((length vs < 2)%nat /\ sd = 0%R
              \/ (2 <= length vs)%nat /\
                 exists var : Q,
                   (var * (n - 1) == sum_sq_dev vs a)%Q
                   /\ (0 <= sd)%R /\ (sd * sd = Q2R var)%R))
  /\ (forall t1 t2 t3 : Q,
        get_stats (holding st [(t1, 200); (t2, 400); (t3, 600)])
        = (Ok (400%Q, 600, 200%R, 3%nat),
           holding st [(t1, 200); (t2, 400); (t3, 600)])).
Proof.
  split; [reflexivity|]. split; [|split].
  - intros t v. apply (get_stats_cons st (t, v) []).
    + apply statistics_mean_single.
    + reflexivity.
    + reflexivity.
  - intros [t x] d vs n. destruct d as [|[t' y] r].
    + exists (inject_Z x), x, 0%R. split; [|split; [|split; [|split]]].
      * apply (get_stats_cons st (t, x) []);
          [apply statistics_mean_single | reflexivity | reflexivity].
      * unfold n, vs, Qeq; simpl. lia.
      * now left.
      * constructor; [cbn; lia | constructor].
      * left. split; [cbn [length map vs]; lia | reflexivity].
    + set (r' := map snd r).
      assert (Hvs : vs = x :: y :: r') by reflexivity.
      destruct (statistics_stdev_two x y r') as [c [v [Hc [Hsd [Hv [Hpos Hsq]]]]]].
      destruct (statistics_mean_cons x (y :: r')) as [c' [Hc' Hmean]].
      rewrite Hc in Hc'. injection Hc' as <-.
      destruct (max_of_cons x (y :: r')) as [m [Hm [Hin Hall]]].
      exists c, m, (sqrt (Q2R v)). rewrite Hvs.
      split; [|split; [|split; [|split]]].
      * apply (get_stats_cons st (t, x) ((t', y) :: r)); assumption.
      * exact Hmean.
      * exact Hin.
      * exact Hall.
      * right. split; [cbn [length]; lia|].
        exists v. split; [|split; assumption].
        rewrite <- Hv. unfold n. rewrite Hvs.
        apply Qmult_comp; [reflexivity|].
        unfold Z.sub. rewrite inject_Z_plus, inject_Z_opp. reflexivity.
  - intros t1 t2 t3.
    apply (get_stats_cons st (t1, 200) [(t2, 400); (t3, 600)]).
    + vm_compute. reflexivity.
    + reflexivity.
    + apply stdev_200_400_600.
Qed.

(** ** Construction *)

Lemma init_positive (w : World) (iv : Q) (lg : list LogRecord) (k : nat) :
  (0 < iv)%Q ->
  __init__ w iv lg k =
    Ok (mkState (fresh iv)
          (if exists_at w k then lg
           else lg ++ [(WARNING, GpuLoadFileNotFound default_gpu_load_path)])
          (S k)).
Proof.
  intros Hpos. unfold __init__.
  destruct (Qle_bool iv 0) eqn:E.
  - apply Qle_bool_iff in E. exfalso. apply (Qlt_not_le _ _ Hpos E).
  - unfold bind, os_path_exists, next_tick, ret, logger. cbn.
    destruct (exists_at w k); reflexivity.
Qed.

(** C6: construction succeeds for every interval above 0, also when the load
    file does not exist, in which case a warning is logged and nothing else
    differs; it fails with [InvalidConfiguration] for every interval that is
    0 or below. *)
Theorem init_spec (w : World) (iv : Q) (lg : list LogRecord) (k : nat) :
  ((0 < iv)%Q ->
     exists st, __init__ w iv lg k = Ok st /\ self st = fresh iv
       /\ (exists_at w k = true -> logged st = lg)
       /\ (exists_at w k = false ->
             logged st = lg ++ [(WARNING, GpuLoadFileNotFound default_gpu_load_path)]))
  /\ ((iv <= 0)%Q -> __init__ w iv lg k = Raise InvalidConfiguration).
Proof.
  split.
  - intros Hpos. eexists. split; [apply init_positive, Hpos|].
    split; [reflexivity|]. cbn [logged].
    split; intros ->; reflexivity.
  - intros Hle. unfold __init__.
    apply Qle_bool_iff in Hle. rewrite Hle. reflexivity.
Qed.

Lemma init_spec_witness :
  (exists st, __init__ absent_world (1 # 100) [] 0 = Ok st
     /\ self st = fresh (1 # 100)
     /\ logged st = [(WARNING, GpuLoadFileNotFound default_gpu_load_path)])
  /\ __init__ absent_world 0 [] 0 = Raise InvalidConfiguration
  /\ __init__ absent_world (- (1 # 2)) [] 0 = Raise InvalidConfiguration.
Proof.
  split; [|split].
  - destruct (proj1 (init_spec absent_world (1 # 100) [] 0) eq_refl)
      as [st [H1 [H2 [_ H3]]]].
    exists st. split; [exact H1|]. split; [exact H2|]. apply H3. reflexivity.
  - apply (proj2 (init_spec absent_world 0 [] 0)). discriminate.
  - apply (proj2 (init_spec absent_world (- (1 # 2)) [] 0)). discriminate.
Defined.

(** C9: on a freshly constructed object, before any call of [start],
    [is_running] gives false, [get_data] the empty sequence and [get_stats]
    (0, 0, 0, 0). *)
Theorem fresh_object_observations (w : World) (iv : Q) (lg : list LogRecord)
    (k : nat) (st : State) :
  __init__ w iv lg k = Ok st ->
  is_running st = (Ok false, st)
  /\ get_data st = (Ok [], st)
  /\ get_stats st = (Ok (0%Q, 0, 0%R, 0%nat), st).
Proof.
  intros H. unfold __init__ in H.
  destruct (Qle_bool iv 0); [discriminate|].
  unfold bind, os_path_exists, next_tick, ret, logger in H. cbn in H.
  destruct (exists_at w k); injection H as <-; repeat split.
Qed.

Lemma fresh_object_observations_witness :
  exists st, __init__ absent_world (1 # 100) [] 0 = Ok st
    /\ is_running st = (Ok false, st)
    /\ get_data st = (Ok [], st)
    /\ get_stats st = (Ok (0%Q, 0, 0%R, 0%nat), st).
Proof.
  eexists. split; [reflexivity|].
  apply (fresh_object_observations absent_world (1 # 100) [] 0). reflexivity.
Defined.

(** ** The read-only calls *)

Lemma get_current_utilization_run (w : World) (st : State) :
  get_current_utilization w st =
    match read_outcome w (tick st) with
    | Ok v => (Ok v, mkState (self st) (logged st) (S (tick st)))
    | Raise e =>
        (Ok 0, mkState (self st) (logged st ++ [(ERROR, ErrorReadingCurrent e)])
                 (S (tick st)))
    end.
Proof.
  unfold get_current_utilization, try_except, bind, get_self, open_read,
    next_tick, lift, logger, ret, raise, read_outcome. cbn.
  destruct (file_at w (tick st)) as [s|e]; cbn; [|reflexivity].
  destruct (int (strip s)); reflexivity.
Qed.

Lemma get_stats_state (st : State) : snd (get_stats st) = st.
Proof.
  unfold get_stats, bind, get_self, lift, ret.
  destruct (utilization_data (self st)) as [|x d]; [reflexivity|].
  destruct (statistics_mean _); [|reflexivity].
  destruct (max_of _); [|reflexivity].
  destruct (1 <? _)%nat; [|reflexivity].
  destruct (statistics_stdev _); reflexivity.
Qed.

(** C10: [get_data], [get_stats], [is_running] and
    [get_current_utilization] leave the object as it was, in every state:
    buffer, interval, path, start instant, stop flag and thread handle are the
    fields of [self]. *)
Theorem observers_leave_object_unchanged (w : World) (st : State) :
  self (snd (get_data st)) = self st
  /\ self (snd (get_stats st)) = self st
  /\ self (snd (is_running st)) = self st
  /\ self (snd (get_current_utilization w st)) = self st.
Proof.
  split; [reflexivity|]. split; [|split; [reflexivity|]].
  - now rewrite get_stats_state.
  - rewrite get_current_utilization_run.
    destruct (read_outcome w (tick st)); reflexivity.
Qed.

(** C5, as stated, fails: the file text "5000" parses as an integer, and the
    call returns that integer, which is not in [0, 1000]. *)
Lemma get_current_utilization_out_of_range :
  file_at (file_world "5000") (tick idle_state) = Content "5000"
  /\ int (strip "5000") = Ok 5000
  /\ fst (get_current_utilization (file_world "5000") idle_state) = Ok 5000
  /\ ~ (0 <= 5000 <= 1000).
Proof.
  split; [reflexivity|]. split; [vm_compute; reflexivity|].
  split; [vm_compute; reflexivity|]. lia.
Qed.

(** C5, amended: [get_current_utilization] does one read of the load file
    whatever the state of the thread; it always returns normally and leaves
    the object as it was.  When the text of the file parses as an integer
    after trimming it returns that integer as it is (so a value in
    [0, 1000] exactly when the file holds one); when the file cannot be read
    or its text is not an integer it returns 0 and logs the error. *)
Theorem get_current_utilization_spec (w : World) (st : State) :
  exists (v : Z) (st' : State),
    get_current_utilization w st = (Ok v, st')
    /\ self st' = self st /\ tick st' = S (tick st)
    /\ (forall s n, file_at w (tick st) = Content s -> int (strip s) = Ok n ->
          v = n /\ logged st' = logged st /\ (0 <= n <= 1000 -> 0 <= v <= 1000))
    /\ (forall s e, file_at w (tick st) = Content s -> int (strip s) = Raise e ->
          v = 0 /\ logged st' = logged st ++ [(ERROR, ErrorReadingCurrent e)])
    /\ (forall e, file_at w (tick st) = Fails e ->
          v = 0 /\ logged st' = logged st ++ [(ERROR, ErrorReadingCurrent e)]).
Proof.
  rewrite get_current_utilization_run. unfold read_outcome.
  destruct (file_at w (tick st)) as [s|e].
  - destruct (int (strip s)) as [n|e] eqn:E; eexists; eexists;
      (split; [reflexivity|]); (split; [reflexivity|]); (split; [reflexivity|]);
      cbn [logged]; (split; [|split]).
    + intros s' n' Hs Hn. injection Hs as <-.
      rewrite E in Hn. injection Hn as <-. auto.
    + intros s' e' Hs He. injection Hs as <-. congruence.
    + discriminate.
    + intros s' n' Hs Hn. injection Hs as <-. congruence.
    + intros s' e' Hs He. injection Hs as <-.
      rewrite E in He. injection He as <-. auto.
    + discriminate.
  - eexists; eexists.
    (split; [reflexivity|]); (split; [reflexivity|]); (split; [reflexivity|]).
    cbn [logged]. split; [|split]; try discriminate.
    intros e' He. injection He as <-. auto.
Qed.

Lemma get_current_utilization_spec_witness :
  fst (get_current_utilization (file_world "500") idle_state) = Ok 500
  /\ fst (get_current_utilization (file_world "n/a") idle_state) = Ok 0
  /\ fst (get_current_utilization absent_world idle_state) = Ok 0.
Proof.
  split; [|split].
  - destruct (get_current_utilization_spec (file_world "500") idle_state)
      as [v [st' [H [_ [_ [Hok _]]]]]].
    rewrite H. cbn [fst]. f_equal.
    apply (Hok "500"%string 500); [reflexivity | vm_compute; reflexivity].
  - destruct (get_current_utilization_spec (file_world "n/a") idle_state)
      as [v [st' [H [_ [_ [_ [Hbad _]]]]]]].
    rewrite H. cbn [fst]. f_equal.
    apply (Hbad "n/a"%string (ValueError "invalid literal for int() with base 10"));
      [reflexivity | vm_compute; reflexivity].
  - destruct (get_current_utilization_spec absent_world idle_state)
      as [v [st' [H [_ [_ [_ [_ Hfail]]]]]]].
    rewrite H. cbn [fst]. f_equal.
    apply (Hfail FileNotFoundError). reflexivity.
Defined.

(** ** Sessions *)

(** Unfolds one statement of the thread, or one method, on a state given by
    its fields. *)
Ltac run :=
  cbv [thread_step _monitor start bind ret raise try_except get_self put_self
       logger next_tick time_time open_read lift set_utilization_data
       set_stop_event set_start_time set_thread append goto thread_is_alive
       is_alive];
  cbn [self logged tick thread at_pc timestamp gpu_util interval
       utilization_data stop_event start_time gpu_load_path fst snd].

Lemma last_stamp_app (d : list Sample) (t : Q) (v : Z) :
  last_stamp (d ++ [(t, v)]) = Some t.
Proof. unfold last_stamp. rewrite rev_unit. reflexivity. Qed.

Section Sessions.

Variable w : World.

Lemma thread_step_dead (st : State) :
  thread_is_alive (self st) = false -> thread_step w st = st.
Proof.
  unfold thread_is_alive, thread_step.
  destruct (thread (self st)) as [[f| |e]|]; try reflexivity; discriminate.
Qed.

Lemma thread_steps_dead (n : nat) (st : State) :
  thread_is_alive (self st) = false -> thread_steps w n st = st.
Proof.
  revert st; induction n as [|n IH]; intros st H; [reflexivity|].
  cbn [thread_steps]. rewrite (thread_step_dead st H). apply IH, H.
Qed.

Lemma thread_steps_add (n m : nat) (st : State) :
  thread_steps w (n + m) st = thread_steps w m (thread_steps w n st).
Proof.
  revert st; induction n as [|n IH]; intros st; [reflexivity|].
  cbn [thread_steps Nat.add]. apply IH.
Qed.

Lemma thread_step_synced (st : State) :
  synced (self st) -> synced (self (thread_step w st)).
Proof.
  destruct st as [[iv d se t0 path [[[p ts gu]| |e]|]] lg k];
    try (intros _; exact I).
  unfold synced. cbn [self thread at_pc timestamp gpu_util utilization_data].
  destruct p; run.
  - intros [-> ->]. reflexivity.
  - intros H. destruct se; cbn; [exact I | exact H].
  - intros H. destruct (file_at w k) as [s|e]; cbn; [|exact H].
    destruct (int (strip s)); cbn; [|exact H].
    split; [exact H | discriminate].
  - intros [H Hg]. destruct t0; cbn; [|exact H].
    split; [discriminate | exact Hg].
  - intros [Ht Hg]. destruct ts as [t|]; [|contradiction].
    destruct gu as [v|]; [|contradiction]. cbn.
    apply last_stamp_app.
  - intros H. destruct (Qle_bool 0 iv); cbn; exact H.
  - intros H. exact H.
  - intros H. destruct ts; cbn; exact I.
Qed.

Lemma start_run (st : State) :
  start st =
    if thread_is_alive (self st) then (Raise AlreadyRunning, st)
    else
      let o := mkFastGPUMonitor (interval (self st)) [] false (start_time (self st))
                 (gpu_load_path (self st))
                 (Some (Alive (mkFrame AtStart None None))) in
      if Qeq_bool (interval (self st)) 0
      then (Raise ZeroDivisionError, mkState o (logged st) (tick st))
      else (Ok tt,
            mkState o
              (logged st ++ [(DEBUG, StartedMonitoring (1 / interval (self st))%Q)])
              (tick st)).
Proof.
  destruct st as [[iv d se t0 path th] lg k].
  unfold start, bind, get_self. cbn [self].
  destruct (thread_is_alive _); [reflexivity|].
  run. destruct (Qeq_bool iv 0); reflexivity.
Qed.

Lemma join_invariant (P : State -> Prop) :
  (forall st, P st -> P (thread_step w st)) ->
  forall fuel st st', P st -> join w fuel st = Some st' ->
    P st' /\ thread_is_alive (self st') = false.
Proof.
  intros Hstep fuel. induction fuel as [|fuel IH]; intros st st' HP; cbn [join];
    destruct (thread_is_alive (self st)) eqn:E; try discriminate.
  - intros H; injection H as <-. auto.
  - intros H. apply (IH _ _ (Hstep _ HP) H).
  - intros H; injection H as <-. auto.
Qed.

(** A property that the constructor establishes and that every statement of
    the thread and every elementary effect of the methods preserves holds in
    every reachable state. *)
Lemma reachable_invariant (P : State -> Prop) :
  (forall iv lg k st, __init__ w iv lg k = Ok st -> P st) ->
  (forall st, P st -> P (thread_step w st)) ->
  (forall st, P st -> P (snd (start st))) ->
  (forall st, P st -> P (snd (set_stop_event true st))) ->
  (forall st l m, P st -> P (snd (logger l m st))) ->
  (forall st, P st -> P (mkState (self st) (logged st) (S (tick st)))) ->
  forall st, reachable w st -> P st.
Proof.
  intros Hinit Hstep Hstart Hset Hlog Htick st Hr.
  induction Hr as [iv lg k st H | st _ IH | st _ IH | st fuel r st' _ IH H
                  | st _ IH | st _ IH | st _ IH | st _ IH].
  - apply (Hinit _ _ _ _ H).
  - apply Hstep, IH.
  - apply Hstart, IH.
  - unfold stop in H. destruct (negb (thread_is_alive (self st))).
    + injection H as <- <-. exact IH.
    + destruct (join w fuel _) as [st1|] eqn:J; [|discriminate].
      injection H as <- <-.
      apply Hlog. apply (join_invariant P Hstep _ _ _ (Hset _ IH) J).
  - rewrite get_current_utilization_run.
    destruct (read_outcome w (tick st)) as [v|e]; cbn [snd].
    + apply Htick, IH.
    + apply (Hlog _ ERROR (ErrorReadingCurrent e)) in IH.
      apply Htick in IH. exact IH.
  - rewrite get_stats_state. exact IH.
  - exact IH.
  - exact IH.
Qed.

Lemma init_state (iv : Q) (lg : list LogRecord) (k : nat) (st : State) :
  __init__ w iv lg k = Ok st ->
  self st = fresh iv /\ tick st = S k /\ (0 < iv)%Q.
Proof.
  intros H. destruct (Qlt_le_dec 0 iv) as [Hpos | Hle].
  - rewrite (init_positive w iv lg k Hpos) in H. injection H as <-. auto.
  - unfold __init__ in H. apply Qle_bool_iff in Hle. rewrite Hle in H. discriminate.
Qed.

Lemma reachable_synced (st : State) : reachable w st -> synced (self st).
Proof.
  apply (reachable_invariant (fun st => synced (self st))).
  - intros iv lg k st0 H. destruct (init_state _ _ _ _ H) as [-> _]. exact I.
  - apply thread_step_synced.
  - intros st0 H. rewrite start_run.
    destruct (thread_is_alive (self st0)) eqn:E; [exact H|].
    cbv zeta. destruct (Qeq_bool _ _); cbn; auto.
  - intros [[iv d se t0 path th] lg k] H. exact H.
  - intros st0 l m H. exact H.
  - intros st0 H. exact H.
Qed.

(** *** Order of the elapsed times *)








Lemma reachable_thread_steps (n : nat) (st : State) :
  reachable w st -> reachable w (thread_steps w n st).
Proof.
  revert st; induction n as [|n IH]; intros st H; [exact H|].
  cbn [thread_steps]. apply IH, reach_thread, H.
Qed.


(** *** [start] *)

Lemma thread_step_past_start (st : State) :
  past_start (self st) ->
  past_start (self (thread_step w st))
  /\ start_time (self (thread_step w st)) = start_time (self st).
Proof.
  destruct st as [[iv d se t0 path [[[p ts gu]| |e]|]] lg k];
    try (intros _; split; [exact I | reflexivity]).
  unfold past_start. cbn [self thread at_pc]. intros Hp.
  destruct p; [contradiction| | | | | | |]; run.
  - destruct se; cbn; split; try exact I; try reflexivity; discriminate.
  - destruct (file_at w k) as [s|e]; cbn; [destruct (int (strip s)); cbn|];
      split; try reflexivity; discriminate.
  - destruct t0; cbn; split; try reflexivity; discriminate.
  - destruct ts, gu; cbn; split; try reflexivity; discriminate.
  - destruct (Qle_bool 0 iv); cbn; split; try reflexivity; discriminate.
  - split; [discriminate | reflexivity].
  - destruct ts; cbn; split; try exact I; reflexivity.
Qed.

Lemma thread_steps_past_start (n : nat) (st : State) :
  past_start (self st) ->
  start_time (self (thread_steps w n st)) = start_time (self st).
Proof.
  revert st; induction n as [|n IH]; intros st H; [reflexivity|].
  cbn [thread_steps]. destruct (thread_step_past_start st H) as [H1 H2].
  rewrite (IH _ H1). exact H2.
Qed.

(** C3: while the thread of the object is alive [start] raises
    [AlreadyRunning] and changes nothing.  Otherwise it empties the buffer,
    clears the stop flag, launches the thread and returns at once: no
    statement of the thread has run and the buffer is empty when it returns.
    The first statement of the thread then sets the start instant to the
    current time, so the start instant of the session is in place whenever
    the buffer holds a sample. *)
Theorem start_spec (st : State) :
  (thread_is_alive (self st) = true -> start st = (Raise AlreadyRunning, st))
  /\ (thread_is_alive (self st) = false -> (0 < interval (self st))%Q ->
        exists st',
          start st = (Ok tt, st')
          /\ utilization_data (self st') = []
          /\ stop_event (self st') = false
          /\ thread (self st') = Some (Alive (mkFrame AtStart None None))
          /\ is_running st' = (Ok true, st')
          /\ tick st' = tick st
          /\ interval (self st') = interval (self st)
          /\ gpu_load_path (self st') = gpu_load_path (self st)
          /\ start_time (self (thread_step w st')) = Some (time_at w (tick st'))
          /\ utilization_data (self (thread_step w st')) = []
          /\ forall n,
               utilization_data (self (thread_steps w n st')) <> [] ->
               start_time (self (thread_steps w n st')) = Some (time_at w (tick st'))).
Proof.
  rewrite start_run. split; intros E; rewrite E; [reflexivity|].
  intros Hpos. cbv zeta.
  destruct (Qeq_bool (interval (self st)) 0) eqn:Z.
  { apply Qeq_bool_iff in Z. rewrite Z in Hpos. exfalso. apply (Qlt_irrefl 0 Hpos). }
  eexists. split; [reflexivity|].
  destruct st as [[iv d se t0 path th] lg k]. cbn.
  repeat (split; [reflexivity|]).
  intros [|n]; [intros H; contradiction|].
  intros _. cbn [thread_steps].
  rewrite thread_steps_past_start; [reflexivity|].
  cbn. discriminate.
Qed.

(** *** [stop] *)

Lemma thread_step_keeps_stop_event (st : State) :
  stop_event (self (thread_step w st)) = stop_event (self st).
Proof.
  destruct st as [[iv d se t0 path [[[p ts gu]| |e]|]] lg k]; try reflexivity.
  destruct p; run; try reflexivity.
  - destruct se; reflexivity.
  - destruct (file_at w k) as [s|e]; cbn; [destruct (int (strip s))|]; reflexivity.
  - destruct t0; reflexivity.
  - destruct ts, gu; reflexivity.
  - destruct (Qle_bool 0 iv); reflexivity.
  - destruct ts; reflexivity.
Qed.

Lemma thread_step_remaining (st : State) :
  stop_event (self st) = true -> thread_is_alive (self st) = true ->
  (remaining (self (thread_step w st)) < remaining (self st))%nat.
Proof.
  destruct st as [[iv d se t0 path [[[p ts gu]| |e]|]] lg k];
    cbn [self stop_event]; intros -> Ha; try discriminate Ha.
  unfold remaining at 2. cbn [self thread at_pc].
  destruct p; run; unfold remaining; cbn; try lia.
  - destruct (file_at w k) as [s|e]; cbn; [destruct (int (strip s))|]; cbn; lia.
  - destruct t0; cbn; lia.
  - destruct ts, gu; cbn; lia.
  - destruct (Qle_bool 0 iv); cbn; lia.
  - destruct ts; cbn; lia.
Qed.

Lemma remaining_dead (o : FastGPUMonitor) :
  remaining o = O -> thread_is_alive o = false.
Proof.
  unfold remaining, thread_is_alive.
  destruct (thread o) as [[[p ts gu]| |e]|]; try reflexivity.
  destruct p; discriminate.
Qed.

Lemma join_returns (fuel : nat) (st : State) :
  stop_event (self st) = true -> (remaining (self st) <= fuel)%nat ->
  exists st', join w fuel st = Some st'.
Proof.
  revert st; induction fuel as [|fuel IH]; intros st Hs Hr; cbn [join].
  - rewrite remaining_dead by lia. eexists; reflexivity.
  - destruct (thread_is_alive (self st)) eqn:E; [|eexists; reflexivity].
    apply IH.
    + rewrite thread_step_keeps_stop_event. exact Hs.
    + pose proof (thread_step_remaining st Hs E). lia.
Qed.

Lemma remaining_le_6 (o : FastGPUMonitor) : (remaining o <= 6)%nat.
Proof.
  unfold remaining. destruct (thread o) as [[[p ts gu]| |e]|]; try lia.
  destruct p; cbn; lia.
Qed.

Lemma join_steps (fuel : nat) (st st' : State) :
  join w fuel st = Some st' ->
  thread_is_alive (self st') = false
  /\ stop_event (self st') = stop_event (self st)
  /\ exists n, (n <= fuel)%nat /\ st' = thread_steps w n st.
Proof.
  revert st; induction fuel as [|fuel IH]; intros st; cbn [join];
    destruct (thread_is_alive (self st)) eqn:E; try discriminate.
  - intros H; injection H as <-. split; [exact E|]. split; [reflexivity|].
    exists O. split; [lia | reflexivity].
  - intros H. destruct (IH _ H) as [H1 [H2 [n [Hn H3]]]].
    split; [exact H1|]. split.
    + rewrite H2. apply thread_step_keeps_stop_event.
    + exists (S n). split; [lia | exact H3].
  - intros H; injection H as <-. split; [exact E|]. split; [reflexivity|].
    exists O. split; [lia | reflexivity].
Qed.

(** C4: while no thread of the object is alive [stop] raises [NotRunning]
    and changes nothing.  Otherwise it sets the stop flag and waits for the
    thread: it returns only once the thread has ended, after which
    [is_running] gives false; and it does return, the thread needing at most
    six more statements once the flag is set. *)
Theorem stop_spec (st : State) :
  (thread_is_alive (self st) = false ->
     forall fuel, stop w fuel st = Some (Raise NotRunning, st))
  /\ (thread_is_alive (self st) = true ->
        (forall fuel, (6 <= fuel)%nat -> exists st', stop w fuel st = Some (Ok tt, st'))
        /\ forall fuel r st', stop w fuel st = Some (r, st') ->
             r = Ok tt
             /\ stop_event (self st') = true
             /\ is_running st' = (Ok false, st')
             /\ exists n,
                  st' = snd (logger DEBUG StoppedMonitoring
                               (thread_steps w n (snd (set_stop_event true st))))).
Proof.
  unfold stop. split; intros E; rewrite E; cbn [negb]; [reflexivity|].
  set (st1 := snd (set_stop_event true st)).
  assert (Hs : stop_event (self st1) = true) by reflexivity.
  split.
  - intros fuel Hf.
    destruct (join_returns fuel st1 Hs) as [st2 H].
    { pose proof (remaining_le_6 (self st1)). lia. }
    rewrite H. eexists. reflexivity.
  - intros fuel r st' H.
    destruct (join w fuel st1) as [st2|] eqn:J; [|discriminate].
    injection H as <- <-.
    destruct (join_steps _ _ _ J) as [Hd [Hse [n [_ ->]]]].
    split; [reflexivity|]. split; [cbn [logger snd self]; congruence|].
    split.
    + unfold is_running, bind, get_self, ret. cbn [logger snd self fst].
      rewrite Hd. reflexivity.
    + exists n. reflexivity.
Qed.

(** *** A failing read in the loop *)

Lemma thread_steps_from_dead (n m : nat) (st : State) :
  (n <= m)%nat -> thread_is_alive (self (thread_steps w n st)) = false ->
  thread_steps w m st = thread_steps w n st.
Proof.
  intros Hle Hd. replace m with (n + (m - n))%nat by lia.
  rewrite thread_steps_add. apply thread_steps_dead, Hd.
Qed.

(** The three statements that follow a failing read. *)
Lemma failing_read_steps (st : State) (f : Frame) (e : exn) :
  thread (self st) = Some (Alive f) -> at_pc f = AtRead ->
  read_outcome w (tick st) = Raise e ->
  thread_step w st =
    mkState (mkFastGPUMonitor (interval (self st)) (utilization_data (self st))
               (stop_event (self st)) (start_time (self st))
               (gpu_load_path (self st))
               (Some (Alive (mkFrame (AtHandlerLog e) (timestamp f) (gpu_util f)))))
            (logged st) (S (tick st))
  /\ thread_steps w 2 st =
    mkState (mkFastGPUMonitor (interval (self st)) (utilization_data (self st))
               (stop_event (self st)) (start_time (self st))
               (gpu_load_path (self st))
               (Some (Alive (mkFrame AtHandlerAppend (timestamp f) (gpu_util f)))))
            (logged st ++ [(ERROR, ErrorInMonitoringThread e)]) (S (tick st))
  /\ thread_steps w 3 st =
    match timestamp f with
    | Some ts =>
        mkState (mkFastGPUMonitor (interval (self st))
                   (utilization_data (self st) ++ [(ts, 0)])
                   (stop_event (self st)) (start_time (self st))
                   (gpu_load_path (self st)) (Some Returned))
                (logged st ++ [(ERROR, ErrorInMonitoringThread e)]) (S (tick st))
    | None =>
        mkState (mkFastGPUMonitor (interval (self st)) (utilization_data (self st))
                   (stop_event (self st)) (start_time (self st))
                   (gpu_load_path (self st))
                   (Some (Died (UnboundLocalError "timestamp"))))
                (logged st ++ [(ERROR, ErrorInMonitoringThread e)]) (S (tick st))
    end.
Proof.
  destruct st as [[iv d se t0 path th] lg k], f as [p ts gu].
  cbn [self thread at_pc tick]. intros -> -> Hr.
  assert (H1 : thread_step w
                 (mkState (mkFastGPUMonitor iv d se t0 path
                             (Some (Alive (mkFrame AtRead ts gu)))) lg k)
               = mkState (mkFastGPUMonitor iv d se t0 path
                            (Some (Alive (mkFrame (AtHandlerLog e) ts gu)))) lg (S k)).
  { run. unfold read_outcome in Hr.
    destruct (file_at w k) as [s|e']; cbn.
    - rewrite Hr. reflexivity.
    - injection Hr as ->. reflexivity. }
  cbn [thread_steps]. rewrite H1.
  split; [reflexivity|]. split; [reflexivity|].
  cbn [timestamp]. destruct ts; reflexivity.
Qed.

(** C8: when the first read of a session fails, the error handler runs with
    the local variable [timestamp] unbound: the [append] of the handler has
    no elapsed time to use, it raises [UnboundLocalError] instead of adding a
    sample, and the thread ends on that exception with the buffer empty. *)
Theorem first_read_failure_unbound_timestamp (st : State) (e : exn) :
  thread_is_alive (self st) = false -> (0 < interval (self st))%Q ->
  read_outcome w (S (tick st)) = Raise e ->
  let st' := snd (start st) in
  thread (self (thread_steps w 2 st')) = Some (Alive (mkFrame AtRead None None))
  /\ tick (thread_steps w 2 st') = S (tick st)
  /\ thread (self (thread_steps w 4 st'))
     = Some (Alive (mkFrame AtHandlerAppend None None))
  /\ thread (self (thread_steps w 5 st')) = Some (Died (UnboundLocalError "timestamp"))
  /\ utilization_data (self (thread_steps w 5 st')) = []
  /\ logged (thread_steps w 5 st') = logged st' ++ [(ERROR, ErrorInMonitoringThread e)]
  /\ fst (is_running (thread_steps w 5 st')) = Ok false
  /\ forall n, (5 <= n)%nat -> thread_steps w n st' = thread_steps w 5 st'.
Proof.
  intros Hd Hpos Hr st'.
  assert (E2 : thread_steps w 2 st' =
    mkState (mkFastGPUMonitor (interval (self st)) [] false
               (Some (time_at w (tick st))) (gpu_load_path (self st))
               (Some (Alive (mkFrame AtRead None None))))
            (logged st') (S (tick st))).
  { unfold st'. rewrite start_run, Hd. cbv zeta.
    destruct (Qeq_bool (interval (self st)) 0) eqn:Z.
    { apply Qeq_bool_iff in Z. rewrite Z in Hpos. exfalso. apply (Qlt_irrefl 0 Hpos). }
    destruct st as [[iv d se t0 path th] lg k]. reflexivity. }
  destruct (failing_read_steps (thread_steps w 2 st') (mkFrame AtRead None None) e)
    as [_ [F2 F3]].
  { rewrite E2. reflexivity. }
  { reflexivity. }
  { rewrite E2. exact Hr. }
  rewrite E2 in F2, F3.
  cbn [self logged tick interval utilization_data stop_event start_time
       gpu_load_path timestamp gpu_util] in F2, F3.
  change (thread_steps w 4 st') with (thread_steps w 2 (thread_steps w 2 st')).
  change (thread_steps w 5 st') with (thread_steps w 3 (thread_steps w 2 st')).
  rewrite E2, F2, F3.
  repeat (split; [reflexivity|]).
  intros n Hn. rewrite <- F3, <- E2.
  change (thread_steps w 3 (thread_steps w 2 st')) with (thread_steps w 5 st').
  apply thread_steps_from_dead; [exact Hn|].
  change (thread_steps w 5 st') with (thread_steps w 3 (thread_steps w 2 st')).
  rewrite E2, F3. reflexivity.
Qed.

(** C1, amended: when a read fails in the loop after a sample of the session
    has been recorded, the thread logs the error, appends one sample with
    value 0 whose elapsed time is that of the last sample, and ends: it is
    not alive afterwards and adds no further sample, however long the source
    stays unavailable. *)
Theorem read_failure_ends_loop (st : State) (f : Frame) (ts : Q) (e : exn) :
  reachable w st ->
  thread (self st) = Some (Alive f) -> at_pc f = AtRead ->
  timestamp f = Some ts ->
  read_outcome w (tick st) = Raise e ->
  let st3 := thread_steps w 3 st in
  last_stamp (utilization_data (self st)) = Some ts
  /\ logged st3 = logged st ++ [(ERROR, ErrorInMonitoringThread e)]
  /\ utilization_data (self st3) = utilization_data (self st) ++ [(ts, 0)]
  /\ thread (self st3) = Some Returned
  /\ is_running st3 = (Ok false, st3)
  /\ forall n, (3 <= n)%nat -> thread_steps w n st = st3.
Proof.
  intros Hreach Hth Hpc Hts Hr st3.
  destruct (failing_read_steps st f e Hth Hpc Hr) as [_ [_ F3]].
  rewrite Hts in F3. fold st3 in F3.
  split.
  - pose proof (reachable_synced st Hreach) as Hs.
    unfold synced in Hs. rewrite Hth, Hpc in Hs. congruence.
  - rewrite F3. repeat (split; [reflexivity|]).
    intros n Hn. rewrite <- F3. apply thread_steps_from_dead; [exact Hn|].
    fold st3. rewrite F3. reflexivity.
Qed.

End Sessions.

(** ** Concrete sessions *)

Lemma tick_clock_monotone (f : nat -> read_result) (g : nat -> bool) :
  monotone_clock (mkWorld (fun k => inject_Z (Z.of_nat k)) f g).
Proof.
  intros i j H. cbn [time_at]. rewrite <- Zle_Qle. lia.
Qed.

Lemma reachable_started (w : World) :
  exists_at w 0 = true -> reachable w started.
Proof.
  intros H. apply reach_start. apply (reach_init w (1 # 100) [] 0).
  rewrite init_positive by reflexivity. rewrite H. reflexivity.
Qed.

(** C1, as stated, fails.  In [flaky_world] the first read of the session
    succeeds and every read from tick 5 on fails.  After the failing read the
    thread does not go on: three statements later it has ended, with a single
    sample of value 0 in the buffer, and no later read adds another. *)
Lemma monitor_ends_on_read_failure :
  thread (self before_failure)
    = Some (Alive (mkFrame AtRead (Some (2 # 1)) (Some 500)))
  /\ stop_event (self before_failure) = false
  /\ (forall k, (tick before_failure <= k)%nat ->
        read_outcome flaky_world k = Raise FileNotFoundError)
  /\ forall n, (3 <= n)%nat ->
       thread_is_alive (self (thread_steps flaky_world n before_failure)) = false
       /\ utilization_data (self (thread_steps flaky_world n before_failure))
          = [(2 # 1, 500); (2 # 1, 0)].
Proof.
  split; [vm_compute; reflexivity|]. split; [reflexivity|]. split.
  - intros k Hk. change (tick before_failure) with 5%nat in Hk.
    unfold read_outcome, flaky_world. cbn [file_at].
    destruct (Nat.ltb_spec k 5); [lia | reflexivity].
  - intros n Hn.
    rewrite (thread_steps_from_dead flaky_world 3 n before_failure Hn)
      by (vm_compute; reflexivity).
    split; vm_compute; reflexivity.
Qed.

Lemma read_failure_ends_loop_witness :
  reachable flaky_world before_failure
  /\ read_outcome flaky_world (tick before_failure) = Raise FileNotFoundError
  /\ utilization_data (self (thread_steps flaky_world 3 before_failure))
     = utilization_data (self before_failure) ++ [(2 # 1, 0)]
  /\ thread (self (thread_steps flaky_world 3 before_failure)) = Some Returned.
Proof.
  assert (Hr : reachable flaky_world before_failure).
  { apply reachable_thread_steps, reachable_started. reflexivity. }
  split; [exact Hr|]. split; [reflexivity|].
  destruct (read_failure_ends_loop flaky_world before_failure
              (mkFrame AtRead (Some (2 # 1)) (Some 500)) (2 # 1) FileNotFoundError
              Hr) as [_ [_ [H1 [H2 _]]]].
  - vm_compute; reflexivity.
  - reflexivity.
  - reflexivity.
  - reflexivity.
  - split; [exact H1 | exact H2].
Defined.



Lemma start_spec_witness :
  start started = (Raise AlreadyRunning, started)
  /\ exists st', start constructed = (Ok tt, st')
       /\ utilization_data (self st') = []
       /\ fst (is_running st') = Ok true.
Proof.
  split.
  - apply (proj1 (start_spec absent_world started)). reflexivity.
  - destruct (proj2 (start_spec absent_world constructed) eq_refl eq_refl)
      as [st' [H1 [H2 [_ [_ [H3 _]]]]]].
    exists st'. split; [exact H1|]. split; [exact H2|].
    rewrite H3. reflexivity.
Defined.

Lemma stop_spec_witness :
  stop (file_world "500") 0 constructed = Some (Raise NotRunning, constructed)
  /\ (exists st', stop (file_world "500") 6 two_samples = Some (Ok tt, st'))
  /\ forall r st', stop (file_world "500") 6 two_samples = Some (r, st') ->
       is_running st' = (Ok false, st').
Proof.
  split; [|split].
  - apply (proj1 (stop_spec (file_world "500") constructed)). reflexivity.
  - apply (proj2 (stop_spec (file_world "500") two_samples)).
    + vm_compute; reflexivity.
    + apply le_n.
  - intros r st' H.
    apply (proj2 (proj2 (stop_spec (file_world "500") two_samples) eq_refl)
             6%nat r st' H).
Defined.

Lemma first_read_failure_unbound_timestamp_witness :
  read_outcome absent_world (S (tick constructed)) = Raise FileNotFoundError
  /\ thread (self (thread_steps absent_world 5 started))
     = Some (Died (UnboundLocalError "timestamp"))
  /\ utilization_data (self (thread_steps absent_world 5 started)) = [].
Proof.
  split; [reflexivity|].
  destruct (first_read_failure_unbound_timestamp absent_world constructed
              FileNotFoundError eq_refl eq_refl eq_refl)
    as [_ [_ [_ [H1 [H2 _]]]]].
  split; [exact H1 | exact H2].
Defined.

(** * Further properties of the class *)

Section Lifecycle.

Variable w : World.

(** What one statement of the thread can do to the object: add at most one
    sample at the end of the buffer, and nothing to the configuration or the
    stop flag. *)
Lemma thread_step_effect (st : State) :
  exists extra,
    utilization_data (self (thread_step w st)) = utilization_data (self st) ++ extra
    /\ (length extra <= 1)%nat
    /\ interval (self (thread_step w st)) = interval (self st)
    /\ gpu_load_path (self (thread_step w st)) = gpu_load_path (self st)
    /\ stop_event (self (thread_step w st)) = stop_event (self st).
Proof.
  destruct st as [[iv d se t0 path [[[p ts gu]| |e]|]] lg k];
    try (exists []; cbn; rewrite app_nil_r; repeat split; lia).
  destruct p; run.
  - exists []. cbn. rewrite app_nil_r. repeat split; lia.
  - exists []. destruct se; cbn; rewrite app_nil_r; repeat split; lia.
  - exists []. destruct (file_at w k) as [s|e]; cbn;
      [destruct (int (strip s)); cbn|]; rewrite app_nil_r; repeat split; lia.
  - exists []. destruct t0; cbn; rewrite app_nil_r; repeat split; lia.
  - destruct ts as [t|], gu as [v|]; cbn;
      [exists [(t, v)] | exists [] | exists [] | exists []];
      cbn; rewrite ?app_nil_r; repeat split; lia.
  - exists []. destruct (Qle_bool 0 iv); cbn; rewrite app_nil_r; repeat split; lia.
  - exists []. cbn. rewrite app_nil_r. repeat split; lia.
  - destruct ts as [t|]; cbn; [exists [(t, 0)] | exists []];
      cbn; rewrite ?app_nil_r; repeat split; lia.
Qed.

Lemma thread_only_steps_interval (n : nat) (st : State) :
  interval (self (thread_steps w n st)) = interval (self st)
  /\ gpu_load_path (self (thread_steps w n st)) = gpu_load_path (self st).
Proof.
  revert st; induction n as [|n IH]; intros st; [split; reflexivity|].
  cbn [thread_steps]. destruct (IH (thread_step w st)) as [H1 H2].
  destruct (thread_step_effect st) as [_ [_ [_ [G1 [G2 _]]]]].
  split; congruence.
Qed.

(** X1: however long the thread runs, it only adds samples at the end of the
    buffer, at most one per statement, so that a later snapshot of
    [get_data] extends an earlier one; and it never changes the interval,
    the path or the stop flag. *)
Theorem thread_only_appends (n : nat) (st : State) :
  exists extra,
    fst (get_data (thread_steps w n st))
      = Ok (utilization_data (self st) ++ extra)
    /\ (length extra <= n)%nat
    /\ interval (self (thread_steps w n st)) = interval (self st)
    /\ gpu_load_path (self (thread_steps w n st)) = gpu_load_path (self st)
    /\ stop_event (self (thread_steps w n st)) = stop_event (self st).
Proof.
  revert st; induction n as [|n IH]; intros st.
  - exists []. cbn. rewrite app_nil_r. repeat split; lia.
  - cbn [thread_steps].
    destruct (IH (thread_step w st)) as [e2 [H1 [H2 [H3 [H4 H5]]]]].
    destruct (thread_step_effect st) as [e1 [G1 [G2 [G3 [G4 G5]]]]].
    exists (e1 ++ e2). split; [|split; [|split; [|split]]].
    + rewrite H1, G1, app_assoc. reflexivity.
    + rewrite length_app. lia.
    + congruence.
    + congruence.
    + congruence.
Qed.

Lemma reachable_positive_interval (st : State) :
  reachable w st ->
  (0 < interval (self st))%Q /\ gpu_load_path (self st) = default_gpu_load_path.
Proof.
  apply (reachable_invariant w
           (fun st => (0 < interval (self st))%Q
                      /\ gpu_load_path (self st) = default_gpu_load_path)).
  - intros iv lg k st0 H. destruct (init_state w _ _ _ _ H) as [-> [_ Hpos]].
    split; [exact Hpos | reflexivity].
  - intros st0 [H1 H2].
    destruct (thread_step_effect st0) as [_ [_ [_ [G1 [G2 _]]]]].
    rewrite G1, G2. auto.
  - intros st0 H. rewrite start_run.
    destruct (thread_is_alive (self st0)); [exact H|].
    cbv zeta. destruct (Qeq_bool _ _); exact H.
  - intros [[iv d se t0 path th] lg k] H. exact H.
  - intros st0 l m H. exact H.
  - intros st0 H. exact H.
Qed.

(** X2: in every reachable state the path is the one the constructor set
    and the interval is not zero (no method and no statement of the thread
    changes them, and the constructor refuses zero), so that [start] never
    fails on the division by the interval: it raises [AlreadyRunning] or
    returns normally. *)
Theorem reachable_configuration (st : State) :
  reachable w st ->
  ~ (interval (self st) == 0)%Q
  /\ gpu_load_path (self st) = default_gpu_load_path
  /\ (fst (start st) = Raise AlreadyRunning \/ fst (start st) = Ok tt).
Proof.
  intros Hr. destruct (reachable_positive_interval st Hr) as [Hpos Hpath].
  split; [intros Z; rewrite Z in Hpos; apply (Qlt_irrefl 0 Hpos)|].
  split; [exact Hpath|].
  rewrite start_run. destruct (thread_is_alive (self st)); [now left|].
  cbv zeta. destruct (Qeq_bool (interval (self st)) 0) eqn:Z; [|now right].
  apply Qeq_bool_iff in Z. rewrite Z in Hpos. exfalso. apply (Qlt_irrefl 0 Hpos).
Qed.

Lemma start_ok (st : State) :
  thread_is_alive (self st) = false -> (0 < interval (self st))%Q ->
  start st =
    (Ok tt,
     mkState (mkFastGPUMonitor (interval (self st)) [] false (start_time (self st))
                (gpu_load_path (self st))
                (Some (Alive (mkFrame AtStart None None))))
       (logged st ++ [(DEBUG, StartedMonitoring (1 / interval (self st))%Q)])
       (tick st)).
Proof.
  intros Hd Hpos. rewrite start_run, Hd. cbv zeta.
  destruct (Qeq_bool (interval (self st)) 0) eqn:Z; [|reflexivity].
  apply Qeq_bool_iff in Z. rewrite Z in Hpos. exfalso. apply (Qlt_irrefl 0 Hpos).
Qed.

(** X3: in every reachable state exactly one of [start] and [stop] goes
    through.  While the thread is alive [start] raises [AlreadyRunning] and
    [stop] returns normally; while it is not, [stop] raises [NotRunning] and
    [start] returns normally with the thread alive. *)
Theorem start_xor_stop (st : State) :
  reachable w st ->
  (thread_is_alive (self st) = true
   /\ start st = (Raise AlreadyRunning, st)
   /\ exists st', stop w 6 st = Some (Ok tt, st'))
  \/ (thread_is_alive (self st) = false
      /\ (forall fuel, stop w fuel st = Some (Raise NotRunning, st))
      /\ exists st', start st = (Ok tt, st')
           /\ thread_is_alive (self st') = true).
Proof.
  intros Hr. destruct (reachable_positive_interval st Hr) as [Hpos _].
  destruct (thread_is_alive (self st)) eqn:E; [left | right].
  - split; [reflexivity|]. split.
    + rewrite start_run, E. reflexivity.
    + unfold stop. rewrite E. cbn [negb].
      destruct (join_returns w 6 (snd (set_stop_event true st))) as [st2 H].
      * reflexivity.
      * apply remaining_le_6.
      * rewrite H. eexists. reflexivity.
  - split; [reflexivity|]. split.
    + intros fuel. unfold stop. rewrite E. reflexivity.
    + eexists. split; [apply start_ok; assumption | reflexivity].
Qed.

Lemma is_running_run (st : State) :
  is_running st = (Ok (thread_is_alive (self st)), st).
Proof. reflexivity. Qed.

Lemma join_dead (fuel : nat) (st : State) :
  thread_is_alive (self st) = false -> join w fuel st = Some st.
Proof. intros H. destruct fuel; cbn [join]; rewrite H; reflexivity. Qed.

Lemma thread_step_appends_left (st : State) :
  stop_event (self st) = true ->
  exists extra,
    utilization_data (self (thread_step w st)) = utilization_data (self st) ++ extra
    /\ (length extra + appends_left (self (thread_step w st))
        <= appends_left (self st))%nat.
Proof.
  destruct st as [[iv d se t0 path [[[p ts gu]| |e]|]] lg k];
    cbn [self stop_event]; intros ->;
    try (exists []; cbn; rewrite app_nil_r; split; [reflexivity | lia]).
  destruct p; run; unfold appends_left.
  - exists []. cbn. rewrite app_nil_r. split; [reflexivity | lia].
  - exists []. cbn. rewrite app_nil_r. split; [reflexivity | lia].
  - exists []. destruct (file_at w k) as [s|e]; cbn;
      [destruct (int (strip s)); cbn|]; rewrite app_nil_r; split;
      try reflexivity; lia.
  - exists []. destruct t0; cbn; rewrite app_nil_r; split; try reflexivity; lia.
  - destruct ts as [t|], gu as [v|]; cbn;
      [exists [(t, v)] | exists [] | exists [] | exists []];
      cbn; rewrite ?app_nil_r; split; try reflexivity; lia.
  - exists []. destruct (Qle_bool 0 iv); cbn; rewrite app_nil_r; split;
      try reflexivity; lia.
  - exists []. cbn. rewrite app_nil_r. split; [reflexivity | lia].
  - destruct ts as [t|]; cbn; [exists [(t, 0)] | exists []];
      cbn; rewrite ?app_nil_r; split; try reflexivity; lia.
Qed.

Lemma join_appends_left (fuel : nat) (st st' : State) :
  stop_event (self st) = true ->
  join w fuel st = Some st' ->
  exists extra,
    utilization_data (self st') = utilization_data (self st) ++ extra
    /\ (length extra <= appends_left (self st))%nat.
Proof.
  revert st; induction fuel as [|fuel IH]; intros st Hs; cbn [join];
    destruct (thread_is_alive (self st)) eqn:E; try discriminate;
    try (intros H; injection H as <-; exists []; rewrite app_nil_r;
         split; [reflexivity | cbn; lia]).
  intros H.
  destruct (thread_step_appends_left st Hs) as [e1 [G1 G2]].
  destruct (thread_step_effect st) as [_ [_ [_ [_ [_ G4]]]]].
  destruct (IH (thread_step w st)) as [e2 [H1 H2]]; [congruence | exact H |].
  exists (e1 ++ e2). split.
  - rewrite H1, G1, app_assoc. reflexivity.
  - rewrite length_app. lia.
Qed.

(** X4: a call of [stop] that returns normally keeps every sample of the
    buffer and lets the thread add at most two more before it ends: the
    sample of the iteration it was in and, when the rest of that iteration
    raises (a [time.sleep] that refuses the interval), the sample of the
    error handler.  This holds in every state and for every interval. *)
Theorem stop_adds_at_most_two_samples (st st' : State) (fuel : nat) :
  stop w fuel st = Some (Ok tt, st') ->
  exists extra,
    fst (get_data st') = Ok (utilization_data (self st) ++ extra)
    /\ (length extra <= 2)%nat.
Proof.
  unfold stop. destruct (negb (thread_is_alive (self st))); [discriminate|].
  destruct (join w fuel _) as [st2|] eqn:J; [|discriminate].
  intros H. injection H as <-.
  destruct (join_appends_left fuel (snd (set_stop_event true st)) st2
              eq_refl J) as [extra [H1 H2]].
  exists extra. split.
  - cbn. rewrite H1. reflexivity.
  - etransitivity; [exact H2|]. unfold appends_left.
    destruct (thread _) as [[[p ts gu]| |e]|]; try lia. destruct p; cbn; lia.
Qed.

(** X5: a session that is stopped before its thread has run records nothing:
    the loop tests the stop flag before its first read, so [stop] right after
    [start] returns with an empty buffer, the thread ended normally, the
    start instant set, and the load file not read. *)
Theorem start_then_stop_records_nothing (st : State) (fuel : nat) :
  thread_is_alive (self st) = false -> (0 < interval (self st))%Q ->
  (2 <= fuel)%nat ->
  exists st', stop w fuel (snd (start st)) = Some (Ok tt, st')
    /\ utilization_data (self st') = []
    /\ thread (self st') = Some Returned
    /\ start_time (self st') = Some (time_at w (tick st))
    /\ tick st' = S (tick st)
    /\ logged st' = logged st
         ++ [(DEBUG, StartedMonitoring (1 / interval (self st))%Q);
             (DEBUG, StoppedMonitoring)].
Proof.
  intros Hd Hpos Hf. rewrite (start_ok st Hd Hpos). cbn [snd].
  destruct fuel as [|[|fuel]]; try lia.
  destruct st as [[iv d se t0 path th] lg k].
  unfold stop. cbn [negb thread_is_alive self thread is_alive].
  cbn [join thread_is_alive self thread is_alive set_stop_event].
  run. rewrite join_dead by reflexivity.
  eexists. split; [reflexivity|]. cbn.
  repeat (split; [reflexivity|]). rewrite <- app_assoc. reflexivity.
Qed.

(** X6: a failing read ends the session without a call of [stop].  Three
    statements after the failing read the thread is not alive, whether or not
    a sample had been recorded before; [stop] then raises [NotRunning], and
    [start] begins a new session with an empty buffer. *)
Theorem read_failure_leaves_session_stopped (st : State) (f : Frame) (e : exn) :
  thread (self st) = Some (Alive f) -> at_pc f = AtRead ->
  read_outcome w (tick st) = Raise e ->
  (0 < interval (self st))%Q ->
  let st3 := thread_steps w 3 st in
  fst (is_running st3) = Ok false
  /\ (forall fuel, stop w fuel st3 = Some (Raise NotRunning, st3))
  /\ exists st', start st3 = (Ok tt, st')
       /\ utilization_data (self st') = []
       /\ fst (is_running st') = Ok true.
Proof.
  intros Hth Hpc Hr Hpos st3.
  destruct (failing_read_steps w st f e Hth Hpc Hr) as [_ [_ F3]].
  fold st3 in F3.
  assert (Hd : thread_is_alive (self st3) = false).
  { rewrite F3. destruct (timestamp f); reflexivity. }
  assert (Hi : interval (self st3) = interval (self st)).
  { rewrite F3. destruct (timestamp f); reflexivity. }
  split; [rewrite is_running_run, Hd; reflexivity|].
  split.
  - intros fuel. unfold stop. rewrite Hd. reflexivity.
  - eexists. split; [apply start_ok; [exact Hd | rewrite Hi; exact Hpos]|].
    split; reflexivity.
Qed.

(** X7: a stopped session can be started again.  After a call of [stop] that
    returned, [start] returns normally, empties the buffer and clears the stop
    flag, and the new thread goes on to its first read instead of leaving the
    loop. *)
Theorem restart_after_stop (st st1 : State) (fuel : nat) (r : Result unit) :
  thread_is_alive (self st) = true -> (0 < interval (self st))%Q ->
  stop w fuel st = Some (r, st1) ->
  stop_event (self st1) = true
  /\ exists st2, start st1 = (Ok tt, st2)
       /\ utilization_data (self st2) = []
       /\ stop_event (self st2) = false
       /\ thread (self (thread_steps w 2 st2))
          = Some (Alive (mkFrame AtRead None None))
       /\ start_time (self (thread_steps w 2 st2)) = Some (time_at w (tick st1)).
Proof.
  intros Ha Hpos. unfold stop. rewrite Ha. cbn [negb].
  destruct (join w fuel _) as [st'|] eqn:J; [|discriminate].
  intros H. injection H as <- <-.
  destruct (join_steps w _ _ _ J) as [Hd [Hse [n [_ E]]]].
  assert (Hi : interval (self st') = interval (self st)).
  { rewrite E. destruct (thread_only_steps_interval n (snd (set_stop_event true st)))
      as [H _]. rewrite H. destruct st as [[] ? ?]. reflexivity. }
  split; [cbn; rewrite Hse; destruct st as [[] ? ?]; reflexivity|].
  eexists. split.
  - apply start_ok; cbn [logger snd self]; [exact Hd | rewrite Hi; exact Hpos].
  - cbn [logger snd self logged tick].
    destruct st' as [[iv d se t0 path th] lg k]. cbn. repeat split.
Qed.

(** *** What the buffer holds *)

Lemma thread_step_values_in (P : Z -> Prop) (st : State) :
  P 0 -> (forall k v, read_outcome w k = Ok v -> P v) ->
  values_in P (self st) -> values_in P (self (thread_step w st)).
Proof.
  intros H0 Hread.
  destruct st as [[iv d se t0 path [[[p ts gu]| |e]|]] lg k];
    try (intros [H _]; split; [exact H | exact I]).
  unfold values_in. cbn [self thread utilization_data gpu_util].
  intros [Hd Hg]. destruct p; run.
  - split; assumption.
  - destruct se; cbn; split; try assumption; exact I.
  - pose proof (Hread k) as Hk. unfold read_outcome in Hk.
    destruct (file_at w k) as [s|e]; cbn; [|split; assumption].
    destruct (int (strip s)) as [v|e]; cbn; [|split; assumption].
    split; [exact Hd|]. intros v' Hv'. injection Hv' as <-. apply Hk. reflexivity.
  - destruct t0; cbn; split; assumption.
  - destruct ts as [t|], gu as [v|]; cbn; try (split; assumption).
    split; [|exact Hg].
    apply Forall_app. split; [exact Hd|].
    constructor; [apply Hg; reflexivity | constructor].
  - destruct (Qle_bool 0 iv); cbn; split; assumption.
  - split; assumption.
  - destruct ts as [t|]; cbn; (split; [|exact I]); [|exact Hd].
    apply Forall_app. split; [exact Hd|]. constructor; [exact H0 | constructor].
Qed.

(** X8: every value [get_data] returns is 0 or a value read from the load
    file: a property that 0 has and that every successful read of the world
    has holds of all samples, in every reachable state.  In particular all
    samples are in [0, 1000] when the file keeps to that range. *)
Theorem sample_values_come_from_reads (P : Z -> Prop) (st : State) :
  P 0 -> (forall k v, read_outcome w k = Ok v -> P v) ->
  reachable w st ->
  exists d, fst (get_data st) = Ok d /\ Forall (fun s : Sample => P (snd s)) d.
Proof.
  intros H0 Hread Hr. exists (utilization_data (self st)).
  split; [reflexivity|].
  revert st Hr.
  apply (reachable_invariant w (fun st => values_in P (self st)) ).
  - intros iv lg k st0 H. destruct (init_state w _ _ _ _ H) as [-> _].
    split; [constructor | exact I].
  - intros st0. apply thread_step_values_in; assumption.
  - intros st0 H. rewrite start_run.
    destruct (thread_is_alive (self st0)); [exact H|].
    cbv zeta. destruct (Qeq_bool _ _); cbn; (split; [constructor | discriminate]).
  - intros [[iv d se t0 path th] lg k] H. exact H.
  - intros st0 l m H. exact H.
  - intros st0 H. exact H.
Qed.

Lemma thread_step_nonneg_times (st : State) :
  monotone_clock w -> nonneg_times w st -> nonneg_times w (thread_step w st).
Proof.
  intros Hm.
  destruct st as [[iv d se t0 path [[[p ts gu]| |e]|]] lg k];
    try (intros H; exact H).
  unfold nonneg_times.
  cbn [self thread utilization_data timestamp at_pc start_time tick].
  assert (Hk : (time_at w k <= time_at w (S k))%Q) by (apply Hm; lia).
  intros [Hd [Hts Hst]]. destruct p; run.
  - split; [exact Hd|]. split; [exact Hts|].
    eexists. split; [reflexivity | exact Hk].
  - destruct se; cbn; (split; [exact Hd|]); [exact I|].
    split; [exact Hts | exact Hst].
  - destruct Hst as [t [E Ht]].
    destruct (file_at w k) as [s|e]; cbn; [destruct (int (strip s)); cbn|];
      (split; [exact Hd|]); (split; [exact Hts|]); exists t;
      (split; [exact E | lra]).
  - destruct Hst as [t [E Ht]]. subst t0. cbn.
    split; [exact Hd|]. split.
    + intros ts' H. injection H as <-. lra.
    + exists t. split; [reflexivity | lra].
  - destruct ts as [t|], gu as [v|]; cbn; try (split; [exact Hd|]; split; assumption).
    split; [|split; assumption].
    apply Forall_app. split; [exact Hd|].
    constructor; [apply Hts; reflexivity | constructor].
  - destruct Hst as [t [E Ht]].
    destruct (Qle_bool 0 iv); cbn; (split; [exact Hd|]); (split; [exact Hts|]);
      exists t; (split; [exact E | lra]).
  - split; [exact Hd|]. split; assumption.
  - destruct ts as [t|]; cbn; (split; [|exact I]); [|exact Hd].
    apply Forall_app. split; [exact Hd|].
    constructor; [apply Hts; reflexivity | constructor].
Qed.

(** X9: under a clock that never runs backwards no sample has a negative
    elapsed time, in any reachable state: the start instant is taken before
    the first read, and the sample of the error handler repeats the time of
    a recorded sample. *)
Theorem elapsed_times_not_negative (st : State) :
  monotone_clock w -> reachable w st ->
  exists d, fst (get_data st) = Ok d /\ Forall (fun s : Sample => (0 <= fst s)%Q) d.
Proof.
  intros Hm Hr. exists (utilization_data (self st)). split; [reflexivity|].
  cut (nonneg_times w st); [intros [H _]; exact H|].
  revert st Hr. apply (reachable_invariant w (nonneg_times w)).
  - intros iv lg k st0 H. destruct (init_state w _ _ _ _ H) as [E _].
    unfold nonneg_times. rewrite E. split; [constructor | exact I].
  - intros st0. apply thread_step_nonneg_times, Hm.
  - intros st0 H. rewrite start_run.
    destruct (thread_is_alive (self st0)); [exact H|].
    cbv zeta. destruct (Qeq_bool _ _); cbn; unfold nonneg_times; cbn;
      (split; [constructor|]); (split; [discriminate | exact I]).
  - intros [[iv d se t0 path th] lg k] H. exact H.
  - intros st0 l m H. exact H.
  - intros [[iv d se t0 path [[[p ts gu]| |e]|]] lg k]; unfold nonneg_times;
      cbn [self thread utilization_data timestamp at_pc start_time tick];
      try (intros H; exact H).
    assert (Hk : (time_at w k <= time_at w (S k))%Q) by (apply Hm; lia).
    intros [Hd [Hts Hst]]. split; [exact Hd|]. split; [exact Hts|].
    destruct p; try exact I; destruct Hst as [t [E Ht]]; exists t;
      (split; [exact E | lra]).
Qed.

End Lifecycle.

(** ** Bounds on the statistics *)

Lemma sum_Z_le (l : list Z) (hi : Z) :
  Forall (fun y => y <= hi) l -> sum_Z l <= hi * Z.of_nat (length l).
Proof.
  induction 1 as [|y l Hy _ IH]; [cbn; lia|].
  cbn [sum_Z fold_right length]. fold (sum_Z l). rewrite Nat2Z.inj_succ. lia.
Qed.

Lemma sum_Z_ge (l : list Z) (lo : Z) :
  Forall (fun y => lo <= y) l -> lo * Z.of_nat (length l) <= sum_Z l.
Proof.
  induction 1 as [|y l Hy _ IH]; [cbn; lia|].
  cbn [sum_Z fold_right length]. fold (sum_Z l). rewrite Nat2Z.inj_succ. lia.
Qed.

Lemma length_cons_pos (x : Z) (r : list Z) :
  (0 < inject_Z (Z.of_nat (length (x :: r))))%Q.
Proof.
  change 0%Q with (inject_Z 0). rewrite <- Zlt_Qlt. cbn [length]. lia.
Qed.

(** The mean is at most any upper bound of the values, and at least any
    lower bound. *)
Lemma mean_le (x : Z) (r : list Z) (a : Q) (hi : Z) :
  (a * inject_Z (Z.of_nat (length (x :: r))) == inject_Z (sum_Z (x :: r)))%Q ->
  Forall (fun y => y <= hi) (x :: r) -> (a <= inject_Z hi)%Q.
Proof.
  intros Ha Hhi. apply sum_Z_le in Hhi.
  apply (Qmult_le_r _ _ _ (length_cons_pos x r)).
  rewrite Ha, <- inject_Z_mult, <- Zle_Qle. exact Hhi.
Qed.

Lemma mean_ge (x : Z) (r : list Z) (a : Q) (lo : Z) :
  (a * inject_Z (Z.of_nat (length (x :: r))) == inject_Z (sum_Z (x :: r)))%Q ->
  Forall (fun y => lo <= y) (x :: r) -> (inject_Z lo <= a)%Q.
Proof.
  intros Ha Hlo. apply sum_Z_ge in Hlo.
  apply (Qmult_le_r _ _ _ (length_cons_pos x r)).
  rewrite Ha, <- inject_Z_mult, <- Zle_Qle. exact Hlo.
Qed.

(** X10: on a non-empty buffer of utilization values, which the class
    documents to be in 0-1000, tighter bounds carry over to the statistics:
    when all values lie between [lo] and [hi], with [0 <= lo] and
    [hi <= 1000], [get_stats] returns a mean and a maximum between [lo] and
    [hi], a mean that is at most the maximum, a standard deviation that is
    not negative, and the number of samples. *)
Theorem get_stats_within_bounds (st : State) (x : Sample) (d : list Sample)
    (lo hi : Z) :
  0 <= lo -> hi <= 1000 ->
  Forall (fun s : Sample => lo <= snd s <= hi) (x :: d) ->
  exists (a : Q) (m : Z) (sd : R),
    get_stats (holding st (x :: d))
      = (Ok (a, m, sd, length (x :: d)), holding st (x :: d))
    /\ (inject_Z lo <= a <= inject_Z hi)%Q
    /\ lo <= m <= hi
    /\ (a <= inject_Z m)%Q
    /\ (0 <= sd)%R.
Proof.
  intros _ _ Hb.
  assert (Hvs : Forall (fun y => lo <= y <= hi) (map snd (x :: d))).
  { apply Forall_map. exact Hb. }
  assert (Hlen : length (map snd (x :: d)) = length (x :: d)) by apply length_map.
  destruct x as [t v]. cbn [map snd] in Hvs.
  destruct (statistics_mean_cons v (map snd d)) as [a [Ha Hmean]].
  destruct (max_of_cons v (map snd d)) as [m [Hm [Hin Hall]]].
  assert (Hsd : exists sd,
             (if (1 <? length (v :: map snd d))%nat
              then statistics_stdev (v :: map snd d) else Ok 0%R) = Ok sd
             /\ (0 <= sd)%R).
  { destruct d as [|[t' y] r].
    - exists 0%R. split; [reflexivity | apply Rle_refl].
    - cbn [map snd].
      destruct (statistics_stdev_two v y (map snd r)) as [c [q [_ [Hs [_ [Hp _]]]]]].
      exists (sqrt (Q2R q)). split; [exact Hs | exact Hp]. }
  destruct Hsd as [sd [Hsd Hpos]].
  exists a, m, sd. rewrite <- Hlen.
  split; [apply (get_stats_cons st (t, v) d); assumption|].
  split; [|split; [|split; [|exact Hpos]]].
  - split.
    + apply (mean_ge v (map snd d) a lo Hmean).
      eapply Forall_impl; [|exact Hvs]. cbn. intros; lia.
    + apply (mean_le v (map snd d) a hi Hmean).
      eapply Forall_impl; [|exact Hvs]. cbn. intros; lia.
  - rewrite Forall_forall in Hvs. apply Hvs, Hin.
  - apply (mean_le v (map snd d) a m Hmean). exact Hall.
Qed.

(** ** A constant load *)

Lemma sum_Z_constant (l : list Z) (v : Z) :
  Forall (fun y => y = v) l -> sum_Z l = v * Z.of_nat (length l).
Proof.
  induction 1 as [|y l Hy _ IH]; [cbn; lia|].
  cbn [sum_Z fold_right length]. fold (sum_Z l). rewrite Nat2Z.inj_succ. lia.
Qed.

Lemma sum_sq_dev_constant (l : list Z) (v : Z) :
  Forall (fun y => y = v) l -> (sum_sq_dev l (inject_Z v) == 0)%Q.
Proof.
  induction 1 as [|y l Hy _ IH]; [reflexivity|].
  cbn [sum_sq_dev fold_right]. fold (sum_sq_dev l (inject_Z v)).
  rewrite IH, Hy. ring.
Qed.

Lemma statistics_mean_constant (x : Z) (r : list Z) (v : Z) :
  Forall (fun y => y = v) (x :: r) -> statistics_mean (x :: r) = Ok (inject_Z v).
Proof.
  intros H. unfold statistics_mean. f_equal.
  rewrite (Qred_complete _ (inject_Z v)).
  - apply Qcanon.Qred_identity. cbn. apply Z.gcd_1_r.
  - rewrite (sum_Z_constant _ _ H), inject_Z_mult. field.
    intro E. pose proof (length_cons_pos x r) as Hn. rewrite E in Hn.
    apply (Qlt_irrefl 0 Hn).
Qed.

Lemma max_of_constant (x : Z) (r : list Z) (v : Z) :
  Forall (fun y => y = v) (x :: r) -> max_of (x :: r) = Ok v.
Proof.
  intros H. destruct (max_of_cons x r) as [m [Hm [Hin _]]].
  rewrite Hm. f_equal. rewrite Forall_forall in H. apply H, Hin.
Qed.

Lemma statistics_stdev_constant (x y : Z) (r : list Z) (v : Z) :
  Forall (fun z => z = v) (x :: y :: r) ->
  statistics_stdev (x :: y :: r) = Ok 0%R.
Proof.
  intros H. unfold statistics_stdev, statistics_variance.
  rewrite (statistics_mean_constant x (y :: r) v H).
  change (length (x :: y :: r) <? 2)%nat with false. cbv iota.
  rewrite (Qred_complete _ 0).
  - change (Qred 0) with 0%Q. rewrite RMicromega.Q2R_0. f_equal. apply sqrt_0.
  - rewrite (sum_sq_dev_constant _ _ H). unfold Qdiv. apply Qmult_0_l.
Qed.

(** X11: when every sample of a non-empty buffer has the same value [v],
    [get_stats] returns [v] as mean and as maximum and 0 as standard
    deviation, with the number of samples. *)
Theorem get_stats_constant_load (st : State) (x : Sample) (d : list Sample)
    (v : Z) :
  Forall (fun s : Sample => snd s = v) (x :: d) ->
  get_stats (holding st (x :: d))
  = (Ok (inject_Z v, v, 0%R, length (x :: d)), holding st (x :: d)).
Proof.
  intros Hc.
  assert (Hvs : Forall (fun y => y = v) (map snd (x :: d))).
  { apply Forall_map. exact Hc. }
  assert (Hlen : length (map snd (x :: d)) = length (x :: d)) by apply length_map.
  rewrite <- Hlen.
  destruct x as [t a]. cbn [map snd] in Hvs.
  apply (get_stats_cons st (t, a) d).
  - apply statistics_mean_constant, Hvs.
  - apply max_of_constant, Hvs.
  - destruct d as [|[t' b] r]; [reflexivity|].
    apply (statistics_stdev_constant a b (map snd r) v Hvs).
Qed.

(** ** Instances of the further properties *)

Lemma reachable_two_samples : reachable (file_world "500") two_samples.
Proof. apply reachable_thread_steps, reachable_started. reflexivity. Qed.

Lemma stop_mid_iteration :
  stop (file_world "500") 6 mid_iteration = Some (Ok tt, stopped_mid).
Proof. vm_compute. reflexivity. Qed.

Lemma reachable_configuration_witness :
  reachable (file_world "500") two_samples
  /\ ~ (interval (self two_samples) == 0)%Q
  /\ gpu_load_path (self two_samples) = default_gpu_load_path.
Proof.
  split; [exact reachable_two_samples|].
  destruct (reachable_configuration (file_world "500") two_samples
              reachable_two_samples) as [H1 [H2 _]].
  split; [exact H1 | exact H2].
Defined.

Lemma start_xor_stop_witness :
  reachable (file_world "500") two_samples
  /\ (thread_is_alive (self two_samples) = true
      /\ start two_samples = (Raise AlreadyRunning, two_samples)
      /\ (exists st', stop (file_world "500") 6 two_samples = Some (Ok tt, st'))
      \/ thread_is_alive (self two_samples) = false
         /\ (forall fuel,
               stop (file_world "500") fuel two_samples
               = Some (Raise NotRunning, two_samples))
         /\ (exists st', start two_samples = (Ok tt, st')
               /\ thread_is_alive (self st') = true)).
Proof.
  split; [exact reachable_two_samples|].
  apply (start_xor_stop (file_world "500") two_samples reachable_two_samples).
Defined.

Lemma stop_adds_at_most_two_samples_witness :
  stop (file_world "500") 6 mid_iteration = Some (Ok tt, stopped_mid)
  /\ exists extra,
       fst (get_data stopped_mid)
         = Ok (utilization_data (self mid_iteration) ++ extra)
       /\ (length extra <= 2)%nat.
Proof.
  split; [exact stop_mid_iteration|].
  apply (stop_adds_at_most_two_samples (file_world "500") mid_iteration
           stopped_mid 6 stop_mid_iteration).
Defined.

Lemma start_then_stop_records_nothing_witness :
  exists st', stop absent_world 2 (snd (start constructed)) = Some (Ok tt, st')
    /\ utilization_data (self st') = []
    /\ thread (self st') = Some Returned.
Proof.
  destruct (start_then_stop_records_nothing absent_world constructed 2
              eq_refl eq_refl (le_n 2)) as [st' [H1 [H2 [H3 _]]]].
  exists st'. split; [exact H1|]. split; [exact H2 | exact H3].
Defined.

Lemma read_failure_leaves_session_stopped_witness :
  read_outcome flaky_world (tick before_failure) = Raise FileNotFoundError
  /\ fst (is_running (thread_steps flaky_world 3 before_failure)) = Ok false
  /\ forall fuel,
       stop flaky_world fuel (thread_steps flaky_world 3 before_failure)
       = Some (Raise NotRunning, thread_steps flaky_world 3 before_failure).
Proof.
  split; [reflexivity|].
  destruct (read_failure_leaves_session_stopped flaky_world before_failure
              (mkFrame AtRead (Some (2 # 1)) (Some 500)) FileNotFoundError)
    as [H1 [H2 _]].
  - vm_compute; reflexivity.
  - reflexivity.
  - reflexivity.
  - reflexivity.
  - split; [exact H1 | exact H2].
Defined.

Lemma restart_after_stop_witness :
  stop (file_world "500") 6 mid_iteration = Some (Ok tt, stopped_mid)
  /\ stop_event (self stopped_mid) = true
  /\ exists st2, start stopped_mid = (Ok tt, st2)
       /\ utilization_data (self st2) = []
       /\ stop_event (self st2) = false.
Proof.
  split; [exact stop_mid_iteration|].
  destruct (restart_after_stop (file_world "500") mid_iteration stopped_mid 6
              (Ok tt)) as [H1 [st2 [H2 [H3 [H4 _]]]]].
  - vm_compute; reflexivity.
  - reflexivity.
  - exact stop_mid_iteration.
  - split; [exact H1|]. exists st2. split; [exact H2|]. split; [exact H3 | exact H4].
Defined.

Lemma file_500_in_range (k : nat) (v : Z) :
  read_outcome (file_world "500") k = Ok v -> 0 <= v <= 1000.
Proof.
  intros H. vm_compute in H. injection H as <-. lia.
Qed.

Lemma sample_values_come_from_reads_witness :
  exists d, fst (get_data two_samples) = Ok d
    /\ Forall (fun s : Sample => 0 <= snd s <= 1000) d.
Proof.
  apply (sample_values_come_from_reads (file_world "500")
           (fun v => 0 <= v <= 1000) two_samples).
  - lia.
  - exact file_500_in_range.
  - exact reachable_two_samples.
Defined.

Lemma elapsed_times_not_negative_witness :
  exists d, fst (get_data two_samples) = Ok d
    /\ Forall (fun s : Sample => (0 <= fst s)%Q) d.
Proof.
  apply (elapsed_times_not_negative (file_world "500") two_samples).
  - apply tick_clock_monotone.
  - exact reachable_two_samples.
Defined.

Lemma get_stats_within_bounds_witness :
  exists (a : Q) (m : Z) (sd : R),
    get_stats (holding idle_state [(0%Q, 200); (1%Q, 400); (2%Q, 600)])
      = (Ok (a, m, sd, 3%nat),
         holding idle_state [(0%Q, 200); (1%Q, 400); (2%Q, 600)])
    /\ (inject_Z 0 <= a <= inject_Z 1000)%Q
    /\ 0 <= m <= 1000
    /\ (a <= inject_Z m)%Q
    /\ (0 <= sd)%R.
Proof.
  apply (get_stats_within_bounds idle_state (0%Q, 200) [(1%Q, 400); (2%Q, 600)]
           0 1000); [lia | lia |].
  repeat constructor; cbn; lia.
Defined.

Lemma get_stats_constant_load_witness :
  get_stats (holding idle_state [(0%Q, 0); (1%Q, 0); (2%Q, 0)])
  = (Ok (inject_Z 0, 0, 0%R, 3%nat),
     holding idle_state [(0%Q, 0); (1%Q, 0); (2%Q, 0)]).
Proof.
  apply (get_stats_constant_load idle_state (0%Q, 0) [(1%Q, 0); (2%Q, 0)] 0).
  repeat constructor.
Defined.

(** ** After [stop] *)

(** X12: a [stop] that returned, normally or with [NotRunning], leaves a
    thread that is not alive, and nothing the scheduler does afterwards
    changes the state: [get_data] keeps returning the same buffer,
    [is_running] gives false, and a second [stop] raises [NotRunning] and
    changes nothing. *)
Theorem stop_is_final (w : World) (st st' : State) (fuel : nat) (r : Result unit) :
  stop w fuel st = Some (r, st') ->
  forall n,
    thread_steps w n st' = st'
    /\ is_running (thread_steps w n st') = (Ok false, st')
    /\ get_data (thread_steps w n st') = (Ok (utilization_data (self st')), st')
    /\ forall fuel',
         stop w fuel' (thread_steps w n st') = Some (Raise NotRunning, st').
Proof.
  intros H n.
  assert (Hd : thread_is_alive (self st') = false).
  { unfold stop in H. destruct (thread_is_alive (self st)) eqn:E; cbn [negb] in H.
    - destruct (join w fuel _) as [st2|] eqn:J; [|discriminate].
      injection H as _ <-. apply (join_steps w _ _ _ J).
    - injection H as _ <-. exact E. }
  rewrite (thread_steps_dead w n st' Hd).
  split; [reflexivity|]. split; [rewrite is_running_run, Hd; reflexivity|].
  split; [reflexivity|].
  intros fuel'. unfold stop. rewrite Hd. reflexivity.
Qed.

Lemma stop_is_final_witness :
  stop (file_world "500") 6 mid_iteration = Some (Ok tt, stopped_mid)
  /\ thread_steps (file_world "500") 9 stopped_mid = stopped_mid
  /\ forall fuel',
       stop (file_world "500") fuel' (thread_steps (file_world "500") 9 stopped_mid)
       = Some (Raise NotRunning, stopped_mid).
Proof.
  split; [exact stop_mid_iteration|].
  destruct (stop_is_final (file_world "500") mid_iteration stopped_mid 6 (Ok tt)
              stop_mid_iteration 9) as [H1 [_ [_ H2]]].
  split; [exact H1 | exact H2].
Defined.
